(** * MAST plugin_functions: the reflection-driven invocation bridge

    A shallow embedding of [mast/plugin_utils/plugin_functions.py]
    (the Catalog lookup [_get_arguments], the Value Coercer loop of
    [call_method] and the Invoker [_call_method]) together with the parts
    of the Python runtime these functions lean on: truthiness, [int()],
    [os.path.join], [os.path.splitext], werkzeug's [MultiDict] and the
    exception hierarchy. *)

From stdpp Require Import base option list strings gmap pretty sorting.
From Stdlib Require Import ZArith Ascii String Lia.

Local Open Scope string_scope.
Local Open Scope Z_scope.

(** ** Python values *)

(** The values that occur as parameter defaults and as coerced arguments.
    [VFloat m e] stands for the float [m * 2^e]; it is only ever inspected
    through its type. *)
#[warnings="-register-all"] Inductive pyval : Type :=
| VNone
| VBool (b : bool)
| VInt (z : Z)
| VStr (s : string)
| VList (l : list pyval)
| VFloat (m e : Z).

(** [bool(v)] *)
Definition truthy (v : pyval) : bool :=
  match v with
  | VNone => false
  | VBool b => b
  | VInt z => negb (z =? 0)
  | VStr s => negb (String.eqb s "")
  | VList l => match l with [] => false | _ => true end
  | VFloat m _ => negb (m =? 0)
  end.

(** [a or b] on values *)
Definition py_or (a b : pyval) : pyval := if truthy a then a else b.

(** ** Exceptions *)

(** The exception classes that matter here.  [SystemExit],
    [KeyboardInterrupt] and [GeneratorExit] derive from [BaseException]
    only; every other class derives from [Exception].  [NotFound] is
    werkzeug's HTTP 404 error, the one [flask.abort(404)] raises in
    [mast/datapower/status/status.py]. *)
Inductive exc_class : Type :=
| TypeError
| ValueError
| IndexError
| KeyError
| UnboundLocalError
| AttributeError
| NotFound
| SystemExit
| KeyboardInterrupt
| GeneratorExit
| UserException (name : string).

(** [isinstance(e, Exception)] *)
Definition is_Exception (c : exc_class) : bool :=
  match c with
  | SystemExit | KeyboardInterrupt | GeneratorExit => false
  | _ => true
  end.

(** An exception instance: its class and [str(e)]. *)
Record exn : Type := Exn { exn_class : exc_class; exn_str : string }.

(** A Python computation either returns or raises. *)
Inductive outcome (A : Type) : Type :=
| Returns (a : A)
| Raises (e : exn).
Arguments Returns {A} a.
Arguments Raises {A} e.

#[global] Instance outcome_ret : MRet outcome := fun A a => Returns a.

#[global] Instance outcome_bind : MBind outcome := fun A B k m =>
  match m with
  | Returns a => k a
  | Raises e => Raises e
  end.

(** A list comprehension whose body may raise: elements are evaluated left
    to right, the first exception aborts the comprehension. *)
Fixpoint comprehension {A B} (f : A → outcome B) (l : list A) : outcome (list B) :=
  match l with
  | [] => Returns []
  | a :: l' =>
      b ← f a;
      bs ← comprehension f l';
      Returns (b :: bs)
  end.

(** ** The credential codec *)

Module Xor.

(** Modelled from the spec: the module [mast.xor] ([xorencode],
    [xordecode]) is imported by [plugin_functions.py] and [status.py] but
    is not among the sources.  The spec calls it a symmetric, session-keyed
    reversible transform over credential strings; as its name says, each
    character of the text is combined by exclusive-or with the
    corresponding character of the key, the key being repeated cyclically
    ([zip(text, cycle(key))]).  This is the exclusive-or of two
    characters. *)
Definition xor_ascii (a b : ascii) : ascii :=
  ascii_of_N (N.lxor (N_of_ascii a) (N_of_ascii b)).

(** Modelled from the spec: the pass over the text that both directions of
    the missing [mast.xor] share.  [rest] is what is left of the current
    turn through [key]; with an empty key the cycle yields nothing and the
    zip stops at once. *)
Fixpoint xor_stream (key rest text : string) : string :=
  match text with
  | EmptyString => EmptyString
  | String c text' =>
      match rest with
      | String k rest' => String (xor_ascii c k) (xor_stream key rest' text')
      | EmptyString =>
          match key with
          | EmptyString => EmptyString
          | String k key' => String (xor_ascii c k) (xor_stream key key' text')
          end
      end
  end.

(** Modelled from the spec: [encode(plaintext, key)] of the missing
    [mast.xor]. *)
Definition xorencode (plaintext key : string) : string :=
  xor_stream key key plaintext.

(** Modelled from the spec: [decode(cipherBytes, key)] of the missing
    [mast.xor]; the transform is symmetric, so it is the same pass. *)
Definition xordecode (cipher key : string) : string :=
  xor_stream key key cipher.

(** Printable ASCII: the codes 32 to 126. *)
Definition printable (c : ascii) : bool :=
  ((32 <=? N_of_ascii c) && (N_of_ascii c <=? 126))%N.

Fixpoint printable_string (s : string) : bool :=
  match s with
  | EmptyString => true
  | String c s' => printable c && printable_string s'
  end.

End Xor.

(** ** Pieces of the Python runtime *)

Module Py.

(** *** Texts *)

(** A text is a Python [str] given by its code points, one character of
    [string] for each: the texts of the model are those whose code points
    are all below 256.  [is_ascii] singles out those below 128. *)
Fixpoint is_ascii (s : string) : bool :=
  match s with
  | EmptyString => true
  | String c s' => (N_of_ascii c <? 128)%N && is_ascii s'
  end.

(** [repr(s)]: single quotes unless the text holds a single quote and no
    double quote; the backslash and the enclosing quote escaped, tab,
    newline and carriage return by letter, every other character that is
    not printable by its code in hexadecimal. *)
Definition hex_digit (n : N) : ascii :=
  ascii_of_N (if (n <? 10)%N then 48 + n else 87 + n).

Definition printable (c : ascii) : bool :=
  let n := N_of_ascii c in
  (((32 <=? n) && (n <=? 126)) || ((161 <=? n) && negb (n =? 173)))%N.

Definition repr_char (quote c : ascii) : string :=
  let n := N_of_ascii c in
  if Ascii.eqb c "\" || Ascii.eqb c quote then String "\" (String c EmptyString)
  else if (n =? 9)%N then "\t"
  else if (n =? 10)%N then "\n"
  else if (n =? 13)%N then "\r"
  else if printable c then String c EmptyString
  else String "\" (String "x" (String (hex_digit (n / 16))
                                  (String (hex_digit (n mod 16)) EmptyString))).

Fixpoint has_char (c : ascii) (s : string) : bool :=
  match s with
  | EmptyString => false
  | String d s' => Ascii.eqb d c || has_char c s'
  end.

Fixpoint repr_chars (quote : ascii) (s : string) : string :=
  match s with
  | EmptyString => String quote EmptyString
  | String c s' => repr_char quote c ++ repr_chars quote s'
  end.

Definition repr (s : string) : string :=
  let quote := if has_char "'" s && negb (has_char "034" s) then "034"%char else "'"%char in
  String quote (repr_chars quote s).

(** *** [int(x)] and [str(z)] for the values a form hands over *)

(** The white space [int()] strips from a [str]: the ASCII white space,
    codes 9 to 13 and 32, and the Unicode white space beyond ASCII, which
    [int()] turns into spaces first; below 256 these are U+0085 and
    U+00A0.  The separators 28 to 31 are white space for [str.isspace]
    but not for [int()]. *)
Definition is_space (c : ascii) : bool :=
  let n := N_of_ascii c in
  (((9 <=? n) && (n <=? 13)) || (n =? 32) || (n =? 133) || (n =? 160))%N.

(** The decimal digits; no code point from 128 to 255 is one. *)
Definition digit_value (c : ascii) : option Z :=
  let n := N_of_ascii c in
  if ((48 <=? n) && (n <=? 57))%N then Some (Z.of_N n - 48) else None.

Fixpoint lstrip (s : string) : string :=
  match s with
  | EmptyString => EmptyString
  | String c s' => if is_space c then lstrip s' else s
  end.

Fixpoint rstrip (s : string) : string :=
  match s with
  | EmptyString => EmptyString
  | String c s' =>
      let r := rstrip s' in
      if is_space c && String.eqb r "" then EmptyString else String c r
  end.

Definition strip (s : string) : string := rstrip (lstrip s).

(** Decimal digits, single underscores allowed between digits only. *)
Fixpoint digits (s : string) (acc : Z) (after_digit : bool) : option Z :=
  match s with
  | EmptyString => if after_digit then Some acc else None
  | String c s' =>
      match digit_value c with
      | Some d => digits s' (10 * acc + d) true
      | None =>
          if Ascii.eqb c "_" && after_digit then digits s' acc false else None
      end
  end.

(** The run of digits and underscores a text starts with, and the rest. *)
Fixpoint span_digits (s : string) : string * string :=
  match s with
  | EmptyString => (EmptyString, EmptyString)
  | String c s' =>
      if bool_decide (is_Some (digit_value c)) || Ascii.eqb c "_"
      then let '(run, rest) := span_digits s' in (String c run, rest)
      else (EmptyString, s)
  end.

(** The digits of a run, underscores not counted. *)
Fixpoint digit_count (s : string) : nat :=
  match s with
  | EmptyString => O
  | String c s' =>
      ((match digit_value c with Some _ => 1 | None => 0 end) + digit_count s')%nat
  end.

(** [sys.int_max_str_digits], at its default in Python 3.11. *)
Definition int_max_str_digits : nat := 4300.

(** What [int()] makes of a text: white space is stripped at both ends,
    a sign is taken, the run of digits and underscores is checked for its
    underscores, then for its length, and only then for what follows
    it. *)
Inductive literal : Type :=
| Value (z : Z)
| Invalid
| TooLong (n : nat).

Definition split_sign (t : string) : bool * string :=
  match t with
  | String "-" b => (true, b)
  | String "+" b => (false, b)
  | _ => (false, t)
  end.

Definition scan_int (s : string) : literal :=
  let '(negative, body) := split_sign (strip s) in
  let '(run, rest) := span_digits body in
  match digits run 0 false with
  | None => Invalid
  | Some z =>
      if (int_max_str_digits <? digit_count run)%nat then TooLong (digit_count run)
      else if String.eqb rest "" then Value (if negative then - z else z)
      else Invalid
  end.

Definition parse_int (s : string) : option Z :=
  match scan_int s with
  | Value z => Some z
  | _ => None
  end.

(** [str(e)] of the [ValueError] for a text [int()] refuses. *)
Definition int_error (s : string) : string :=
  match scan_int s with
  | TooLong n =>
      "Exceeds the limit (" ++ pretty int_max_str_digits ++
      " digits) for integer string conversion: value has " ++ pretty n ++
      " digits; use sys.set_int_max_str_digits() to increase the limit"
  | _ => "invalid literal for int() with base 10: " ++ substring 0 200 (repr s)
  end.

(** [int(x)] where [x] is what [form.get] returned: [None] is a
    [TypeError], a text that is no integer literal, or one of too many
    digits, a [ValueError]. *)
Definition int (x : option string) : outcome Z :=
  match x with
  | None =>
      Raises (Exn TypeError
        "int() argument must be a string, a bytes-like object or a real number, not 'NoneType'")
  | Some s =>
      match parse_int s with
      | Some z => Returns z
      | None => Raises (Exn ValueError (int_error s))
      end
  end.

(** [str(z)]: the decimal text of [z], refused like [int()] when it has
    more than [int_max_str_digits] digits. *)
Definition str_int (z : Z) : option string :=
  if (digit_count (pretty z) <=? int_max_str_digits)%nat then Some (pretty z) else None.

(** *** [os.path] on a POSIX host *)

Definition sep : ascii := "/"%char.

Definition startswith_sep (s : string) : bool :=
  match s with
  | String c _ => Ascii.eqb c sep
  | EmptyString => false
  end.

Fixpoint endswith_sep (s : string) : bool :=
  match s with
  | EmptyString => false
  | String c EmptyString => Ascii.eqb c sep
  | String _ s' => endswith_sep s'
  end.

(** One turn of the loop of [posixpath.join]. *)
Definition join_step (path b : string) : string :=
  if startswith_sep b then b
  else if String.eqb path "" || endswith_sep path then path ++ b
  else path ++ String sep b.

Definition join (a : string) (p : list string) : string :=
  fold_left join_step p a.

(** [s.rfind(c)]: the index of the last occurrence of [c], or [-1]. *)
Fixpoint rfind_from (c : ascii) (s : string) (i last : Z) : Z :=
  match s with
  | EmptyString => last
  | String d s' => rfind_from c s' (i + 1) (if Ascii.eqb d c then i else last)
  end.

Definition rfind (c : ascii) (s : string) : Z := rfind_from c s 0 (-1).

(** [s[i:j]] for [0 <= i], and [s[i:]]. *)
Definition slice (s : string) (i j : Z) : string :=
  substring (Z.to_nat i) (Z.to_nat (j - i)) s.

Definition slice_from (s : string) (i : Z) : string :=
  substring (Z.to_nat i) (String.length s) s.

(** The loop of [genericpath._splitext] that skips leading dots: is there
    a character other than a dot in the file name before the last dot? *)
Fixpoint has_non_dot (s : string) : bool :=
  match s with
  | EmptyString => false
  | String c s' => if Ascii.eqb c "." then has_non_dot s' else true
  end.

Definition splitext (p : string) : string * string :=
  let sepIndex := rfind sep p in
  let dotIndex := rfind "." p in
  if (sepIndex <? dotIndex) && has_non_dot (slice p (sepIndex + 1) dotIndex)
  then (slice p 0 dotIndex, slice_from p dotIndex)
  else (p, EmptyString).

(** [s.replace(old, new)] for a one-character [old]. *)
Fixpoint replace (old : ascii) (new : string) (s : string) : string :=
  match s with
  | EmptyString => EmptyString
  | String c s' =>
      (if Ascii.eqb c old then new else String c EmptyString) ++ replace old new s'
  end.

(** [sub in s] on strings *)
Fixpoint contains (sub s : string) : bool :=
  String.prefix sub s ||
  match s with
  | EmptyString => false
  | String _ s' => contains sub s'
  end.

(** [v[0]] *)
Definition getitem0 (v : pyval) : outcome pyval :=
  match v with
  | VList [] => Raises (Exn IndexError "list index out of range")
  | VList (x :: _) => Returns x
  | VStr EmptyString => Raises (Exn IndexError "string index out of range")
  | VStr (String c _) => Returns (VStr (String c EmptyString))
  | VNone => Raises (Exn TypeError "'NoneType' object is not subscriptable")
  | VBool _ => Raises (Exn TypeError "'bool' object is not subscriptable")
  | VInt _ => Raises (Exn TypeError "'int' object is not subscriptable")
  | VFloat _ _ => Raises (Exn TypeError "'float' object is not subscriptable")
  end.

(** A string, or [None]. *)
Definition of_option (x : option string) : pyval :=
  match x with
  | Some s => VStr s
  | None => VNone
  end.

End Py.

(** ** werkzeug's [MultiDict] and the request *)

(** A submission maps a field name to the strings submitted under it, in
    order.  [get] is the first of them or [None], [getlist] all of them. *)
Definition get (form : gmap string (list string)) (key : string) : option string :=
  form !! key ≫= head.

Definition getlist (form : gmap string (list string)) (key : string) : list string :=
  default [] (form !! key).

(** [flask.request]: the submitted form and the cookies. *)
Record request : Type := Request {
  form : gmap string (list string);
  cookies : gmap string string
}.

(** [flask.request.cookies[key]].  For a missing key werkzeug raises its
    [BadRequestKeyError], a subclass of [KeyError] (and of the HTTP error
    400, whose text [str(e)] is); it is recorded under the class
    [KeyError]. *)
Definition cookie (req : request) (key : string) : outcome string :=
  match cookies req !! key with
  | Some v => Returns v
  | None =>
      Raises (Exn KeyError
        ("400 Bad Request: The browser (or proxy) sent a request " ++
         "that this server could not understand."))
  end.

(** What the pipeline takes from its surroundings: the credential codec of
    [mast.xor] and [traceback.format_exc()], the rendering of the exception
    being handled. *)
Record runtime : Type := Runtime {
  xorencode : string → string → string;
  xordecode : string → string → outcome string;
  format_exc : exn → string
}.

(** ** The world *)

(** The files written so far, by path, and what went to [sys.stderr].
    Directories are implicit in the paths. *)
Record world : Type := World {
  files : gmap string string;
  stderr : list string
}.

(** What a Python function does when called with keyword arguments in a
    world: it returns or raises, and leaves a world behind, the files it
    wrote and what it sent to [sys.stderr] included. *)
Definition behaviour (A : Type) : Type := gmap string pyval → world → outcome A * world.

(** ** The Command Catalog *)

(** A command function as [inspect.getfullargspec] and a call see it: its
    [__name__], the names of its parameters, its defaults ([None] when it
    declares none) and its behaviour when called with keyword arguments,
    which by the command contract returns a pair (html, request history)
    or raises, having done its work in the world either way. *)
Record command : Type := Command {
  __name__ : string;
  args : list string;
  defaults : option (list pyval);
  call : behaviour (string * string)
}.

(** [module.cli._command_list]: the category index of one plugin, a dict
    from category to the commands under it, in insertion order. *)
Definition command_list : Type := list (string * list command).

(** The modules [get_module] can find, by plugin name. *)
Definition catalog : Type := gmap string command_list.

Definition get_module (cat : catalog) (plugin : string) : outcome command_list :=
  match cat !! plugin with
  | Some m => Returns m
  | None =>
      Raises (Exn AttributeError ("module 'mast.datapower' has no attribute '" ++ plugin ++ "'"))
  end.

(** The local variables of [_get_arguments] that the loops assign: [found],
    the pair [args], [defaults] (assigned together) and [item].  [None]
    stands for a name not yet bound. *)
Record locals : Type := Locals {
  found : bool;
  argspec : option (list string * option (list pyval));
  item : option command
}.

(** [item.__name__ == fn_name]; [fn_name] is [None] when the form has no
    field [callable]. *)
Definition name_matches (it : command) (fn_name : option string) : bool :=
  match fn_name with
  | Some n => String.eqb (__name__ it) n
  | None => false
  end.

(** The inner loop, [for item in items]. *)
Fixpoint scan_items (fn_name : option string) (items : list command) (st : locals) : locals :=
  match items with
  | [] => st
  | it :: rest =>
      if name_matches it fn_name
      then Locals true (Some (args it, defaults it)) (Some it)
      else scan_items fn_name rest (Locals (found st) (argspec st) (Some it))
  end.

(** The outer loop, [for category, items in ... .items()]. *)
Fixpoint scan_categories (fn_name : option string) (cl : command_list) (st : locals) : locals :=
  match cl with
  | [] => st
  | (_, items) :: rest =>
      if found st then st
      else scan_categories fn_name rest (scan_items fn_name items st)
  end.

(** [list(zip(args, defaults))] *)
Definition zip_defaults (a : list string) (d : option (list pyval)) : outcome (list (string * pyval)) :=
  match d with
  | Some ds => Returns (zip a ds)
  | None => Raises (Exn TypeError "'NoneType' object is not iterable")
  end.

Definition _get_arguments (cat : catalog) (plugin : string) (fn_name : option string)
  : outcome (list (string * pyval) * command) :=
  module ← get_module cat plugin;
  let st := scan_categories fn_name module (Locals false None None) in
  match argspec st with
  | None =>
      Raises (Exn UnboundLocalError
        "cannot access local variable 'args' where it is not associated with a value")
  | Some (a, d) =>
      arguments ← zip_defaults a d;
      match item st with
      | Some it => Returns (arguments, it)
      | None =>
          Raises (Exn UnboundLocalError
            "cannot access local variable 'item' where it is not associated with a value")
      end
  end.

(** ** The Field Classifier: the loop of [get_form] *)

(** The templates [get_form] renders. *)
Inductive control : Type :=
| Checkbox (checked : bool)
| MultiText
| MultiSelectObjectStatus
| MultiSelectStatusProvider
| MultiSelectObjectClass
| SelectObjectStatus
| SelectStatusProvider
| SelectObjectClass
| PasswordBox (value : string)
| TextBox (value : pyval)
| FileUpload.

(** The body of the loop of [get_form] for one parameter: the control
    appended to the form, or [None] when the turn appends nothing.  The
    table [OBJECT_STATUS_ARGS] of the module is a parameter. *)
Definition get_form_control (OBJECT_STATUS_ARGS : list string) (key : string) (value : pyval)
  : option control :=
  match value with
  | VBool b =>
      if String.eqb key "web" then None
      else if b then Some (Checkbox true)
      else Some (Checkbox false)
  | VList _ =>
      if String.eqb key "appliances" || String.eqb key "credentials" then None
      else if bool_decide (key ∈ OBJECT_STATUS_ARGS) then Some MultiSelectObjectStatus
      else if String.eqb key "StatusProvider" then Some MultiSelectStatusProvider
      else if String.eqb key "ObjectClass" then Some MultiSelectObjectClass
      else Some MultiText
  | VStr s =>
      if String.eqb key "out_dir" then None
      else if String.eqb key "out_file" then None
      else if bool_decide (key ∈ OBJECT_STATUS_ARGS) then Some SelectObjectStatus
      else if String.eqb key "StatusProvider" then Some SelectStatusProvider
      else if String.eqb key "ObjectClass" then Some SelectObjectClass
      else if Py.contains "password" key then Some (PasswordBox s)
      else Some (TextBox value)
  | VInt _ => Some (TextBox value)
  | VNone =>
      if String.eqb key "out_file" then None
      else if String.eqb key "file_in" then Some FileUpload
      else Some (TextBox (VStr ""))
  | VFloat _ _ => None
  end.

(** ** The Value Coercer: the loop of [call_method] *)

Definition session_cookie : string := "9x4h/mmek/j.ahba.ckhafn".

(** [os.path.join('tmp', 'web', name, last)]; [name] is [None] when the
    form has no field [callable], and [os.path.join] refuses it. *)
Definition staging_path (name : option string) (last : string) : outcome string :=
  match name with
  | Some n => Returns (Py.join "tmp" ["web"; n; last])
  | None =>
      Raises (Exn TypeError "expected str, bytes or os.PathLike object, not NoneType")
  end.

(** ["{}-{}{}".format(timestamp, name, ext)] *)
Definition out_file_name (timestamp : string) (name : option string) (ext : string) : string :=
  timestamp ++ "-" ++ default "None" name ++ ext.

(** The element of the comprehension for [credentials]:
    [xordecode(c.encode(), key=xorencode(cookies[...], key="_"))]. *)
Definition decode_credential (rt : runtime) (req : request) (c : string) : outcome pyval :=
  k ← cookie req session_cookie;
  s ← xordecode rt c (xorencode rt k "_");
  Returns (VStr s).

(** The body of the loop for one parameter: the value assigned to
    [kwargs[arg]], or [None] when no branch of the chain applies and
    nothing is assigned.  In the branch for a string default the test
    [default is not None] of the source is always true. *)
Definition coerce (rt : runtime) (req : request) (name : option string) (timestamp : string)
    (arg : string) (default : pyval) : outcome (option pyval) :=
  match default with
  | VBool _ =>
      if String.eqb arg "web" then Returns (Some (VBool true))
      else
        let value := get (form req) arg in
        if bool_decide (value = Some "true")
        then Returns (Some (VBool true))
        else Returns (Some (VBool false))
  | VList _ =>
      if String.eqb arg "appliances"
      then Returns (Some (VList (VStr <$> getlist (form req) (arg ++ "[]"))))
      else if String.eqb arg "credentials"
      then
        l ← comprehension (decode_credential rt req) (getlist (form req) (arg ++ "[]"));
        Returns (Some (VList l))
      else Returns (Some (VList (VStr <$> getlist (form req) (arg ++ "[]"))))
  | VStr d =>
      if String.eqb arg "out_dir"
      then p ← staging_path name timestamp; Returns (Some (VStr p))
      else if String.eqb arg "out_file"
      then
        p ← staging_path name (out_file_name timestamp name (Py.splitext d).2);
        Returns (Some (VStr (Py.replace Py.sep "/" p)))
      else Returns (Some (py_or (Py.of_option (get (form req) arg)) default))
  | VInt _ =>
      z ← Py.int (get (form req) arg);
      Returns (Some (py_or (VInt z) default))
  | VNone => Returns (Some (py_or (Py.of_option (get (form req) arg)) default))
  | VFloat _ _ => Returns None
  end.

(** [for arg, default in arguments: ...], starting from [kwargs]. *)
Fixpoint build_kwargs (rt : runtime) (req : request) (name : option string) (timestamp : string)
    (arguments : list (string * pyval)) (kwargs : gmap string pyval)
  : outcome (gmap string pyval) :=
  match arguments with
  | [] => Returns kwargs
  | (arg, default) :: rest =>
      v ← coerce rt req name timestamp arg default;
      build_kwargs rt req name timestamp rest
        (match v with Some x => <[arg := x]> kwargs | None => kwargs end)
  end.

(** ** The Invoker *)

(** The constant command substituted when no appliance was checked. *)
Definition _func : behaviour (string * string) := fun kwargs w =>
  (Returns ("Must select at least one appliance.", "Must select at least one appliance."), w).

(** The first statement of [_call_method]: which function is called. *)
Definition select_func (func : behaviour (string * string))
    (kwargs : gmap string pyval) : outcome (behaviour (string * string)) :=
  match kwargs !! "appliances" with
  | None => Returns func
  | Some appliances =>
      first ← Py.getitem0 appliances;
      Returns (if truthy first then func else _func)
  end.

Definition unhandled_message (e : exn) : string :=
  "Sorry, an unhandled exception occurred while " ++
  "performing action:" ++ String "010" (String "010" (String "009" (" " ++ exn_str e))).

Definition history_dir (timestamp : string) : string :=
  Py.join "var" ["www"; "static"; "tmp"; "request_history"; timestamp].

(** ["{}-{}.log".format(str(t.timestamp), str(rand))] *)
Definition history_id (timestamp : string) (rand : Z) : string :=
  timestamp ++ "-" ++ pretty rand ++ ".log".

(** [_call_method(func, kwargs)].  [timestamp] is what [Timestamp()] gives
    when the call is made and [rand] what [random.randint(10000, 99999)]
    draws.  The result is [Some (html, history id)], or [None] when the
    function ends without a [return].  The function called works in the
    world it is given; the handler and the history log go on from the
    world it leaves. *)
Definition _call_method (rt : runtime) (timestamp : string) (rand : Z)
    (func : behaviour (string * string)) (kwargs : gmap string pyval)
    (w : world) : outcome (option (string * string)) * world :=
  match select_func func kwargs with
  | Raises e => (Raises e, w)
  | Returns func =>
      match kwargs !! "web" with
      | None => (Returns None, w)
      | Some _ =>
          let write (out hist : string) (w : world) :=
            let _id := history_id timestamp rand in
            let filename := Py.join (history_dir timestamp) [_id] in
            (Returns (Some (out, _id)), World (<[filename := hist]> (files w)) (stderr w)) in
          match func kwargs w with
          | (Returns (out, hist), w1) => write out hist w1
          | (Raises e, w1) =>
              if is_Exception (exn_class e)
              then write (unhandled_message e) (format_exc rt e)
                     (World (files w1) (stderr w1 ++ [format_exc rt e]))
              else (Raises e, w1)
          end
      end
  end.

(** [call_method(plugin, form)] up to the statement
    [out, history_id = _call_method(func, kwargs)]; what it has in hand
    there is [out], [history_id] and [kwargs].  [t] is the time stamp taken
    on entry, [t'] the one [_call_method] takes. *)
Definition call_method (rt : runtime) (cat : catalog) (t t' : string) (rand : Z)
    (plugin : string) (req : request) (w : world)
  : outcome (string * string * gmap string pyval) * world :=
  let name := get (form req) "callable" in
  match _get_arguments cat plugin name with
  | Raises e => (Raises e, w)
  | Returns (arguments, func) =>
      match build_kwargs rt req name t arguments ∅ with
      | Raises e => (Raises e, w)
      | Returns kwargs =>
          match _call_method rt t' rand (call func) kwargs w with
          | (Raises e, w') => (Raises e, w')
          | (Returns None, w') =>
              (Raises (Exn TypeError "cannot unpack non-iterable NoneType object"), w')
          | (Returns (Some (out, history_id)), w') =>
              (Returns (out, history_id, kwargs), w')
          end
      end
  end.

(** ** Vocabulary of the statements *)

(** The default types the chains of [get_form] and [call_method] know:
    [bool], [list], [str], [int] and [None]. *)
Definition supported (default : pyval) : bool :=
  match default with
  | VFloat _ _ => false
  | _ => true
  end.

(** The skipped parameters: those for which [get_form] renders no control
    although their default has a type it knows, the branches that
    [continue] at once. *)
Definition skipped (arg : string) (default : pyval) : bool :=
  match default with
  | VBool _ => String.eqb arg "web"
  | VList _ => String.eqb arg "appliances" || String.eqb arg "credentials"
  | VStr _ => String.eqb arg "out_dir" || String.eqb arg "out_file"
  | VNone => String.eqb arg "out_file"
  | _ => false
  end.

(** What a submission must provide for the loop of [call_method] to get
    past one parameter: a text [int()] accepts for an [int] default, the
    session cookie and decodable entries for [credentials], and the field
    [callable] for the synthesized paths. *)
Definition well_formed_for (rt : runtime) (req : request) (name : option string)
    (arg : string) (default : pyval) : Prop :=
  match default with
  | VInt _ => ∃ s z, get (form req) arg = Some s ∧ Py.parse_int s = Some z
  | VList _ =>
      arg = "credentials" →
      ∃ k, cookies req !! session_cookie = Some k ∧
           ∀ c, c ∈ getlist (form req) "credentials[]" →
                ∃ s, xordecode rt c (xorencode rt k "_") = Returns s
  | VStr _ => arg = "out_dir" ∨ arg = "out_file" → is_Some name
  | _ => True
  end.

(** What the loop of [call_method] assigns to a skipped parameter. *)
Definition skipped_value (rt : runtime) (req : request) (name : option string)
    (timestamp : string) (arg : string) (default v : pyval) : Prop :=
  match default with
  | VBool _ => v = VBool true
  | VList _ =>
      if String.eqb arg "appliances"
      then v = VList (VStr <$> getlist (form req) "appliances[]")
      else ∃ l, comprehension (decode_credential rt req)
                  (getlist (form req) "credentials[]") = Returns l ∧ v = VList l
  | VStr d =>
      ∃ n, name = Some n ∧
           if String.eqb arg "out_dir"
           then v = VStr (Py.join "tmp" ["web"; n; timestamp])
           else v = VStr (Py.join "tmp" ["web"; n; timestamp ++ "-" ++ n ++ (Py.splitext d).2])
  | VNone => v = py_or (Py.of_option (get (form req) "out_file")) VNone
  | _ => False
  end.

(** [kwargs["appliances"][0]], when [kwargs] has the key. *)
Definition first_appliance (kwargs : gmap string pyval) : option (outcome pyval) :=
  Py.getitem0 <$> kwargs !! "appliances".

(** The guard of [_call_method] can be evaluated. *)
Definition guard_evaluates (kwargs : gmap string pyval) : bool :=
  match first_appliance kwargs with
  | Some (Raises _) => false
  | _ => true
  end.

(** The guard leaves the resolved command in place: there is no entry
    [appliances], or its first element is truthy. *)
Definition calls_command (kwargs : gmap string pyval) : bool :=
  match first_appliance kwargs with
  | None => true
  | Some (Returns first) => truthy first
  | Some (Raises _) => false
  end.

(** Where [_call_method] writes the history of a request, and the world
    once the history [hist] is written. *)
Definition history_path (timestamp : string) (rand : Z) : string :=
  Py.join (history_dir timestamp) [history_id timestamp rand].

Definition logged (timestamp : string) (rand : Z) (hist : string) (w : world) : world :=
  World (<[history_path timestamp rand := hist]> (files w)) (stderr w).

(** The world as the function handed to [_call_method] leaves it: it is
    called when the arguments hold [web] and the guard leaves it in place,
    and not otherwise. *)
Definition after_command (func : behaviour (string * string)) (kwargs : gmap string pyval)
    (w : world) : world :=
  if bool_decide (is_Some (kwargs !! "web")) && calls_command kwargs
  then (func kwargs w).2 else w.

(** No command of the list has the name looked for. *)
Definition absent_from (fn_name : option string) (items : list command) : Prop :=
  Forall (λ it, name_matches it fn_name = false) items.

(** The class of the exception a computation raised, if it raised. *)
Definition raised {A} (o : outcome A) : option exc_class :=
  match o with
  | Returns _ => None
  | Raises e => Some (exn_class e)
  end.


(** ** Sample data for the scenarios *)

(** A runtime to evaluate scenarios with: the codec as modelled above and a
    one-line rendering of the exception for [format_exc]. *)
Definition sample_runtime : runtime :=
  Runtime Xor.xorencode
          (fun c k => Returns (Xor.xordecode c k))
          (fun e => "Traceback (most recent call last): " ++ exn_str e).

Definition empty_world : world := World ∅ [].

Definition no_request : request := Request ∅ ∅.

(** A command that answers, one that raises [ValueError] and one that
    leaves through [sys.exit], none of them touching a file; and one that
    writes a report before it answers. *)
Definition answers : behaviour (string * string) := fun kwargs w =>
  (Returns ("<p>done</p>", "request history"), w).

Definition fails : behaviour (string * string) := fun kwargs w =>
  (Raises (Exn ValueError "boom"), w).

Definition exits : behaviour (string * string) := fun kwargs w =>
  (Raises (Exn SystemExit "1"), w).

Definition reports : behaviour (string * string) := fun kwargs w =>
  (Returns ("<p>done</p>", "request history"),
   World (<["tmp/web/audit/report.csv" := "dp1,ok"]> (files w)) (stderr w)).

(** [def reboot(appliances=[], credentials=[], delay=5, web=False)] *)
Definition reboot : command :=
  Command "reboot" ["appliances"; "credentials"; "delay"; "web"]
          (Some [VList []; VList []; VInt 5; VBool false]) answers.

(** [def status(web="yes")]: [web] declared with a string default. *)
Definition status : command :=
  Command "status" ["web"] (Some [VStr "yes"]) answers.

(** [def ping(appliances=[])]: no parameter [web] at all. *)
Definition ping : command :=
  Command "ping" ["appliances"] (Some [VList []]) answers.

(** A submission for [reboot]: one appliance, one credential, a delay and
    the session cookie. *)
Definition reboot_request : request :=
  Request {[ "callable" := ["reboot"];
             "appliances[]" := ["dp1"];
             "credentials[]" := [Xor.xorencode "admin:s3cret" (Xor.xorencode "cookie" "_")];
             "delay" := ["7"] ]}
          {[ session_cookie := "cookie" ]}.

Definition sample_catalog : catalog :=
  {[ "system" := [("appliance", [reboot; ping]); ("monitoring", [status])] ]}.

(** * More of the code *)

(** ** Text functions of the Python runtime *)

Module PyText.

(** [sep.join(parts)] *)
Fixpoint str_join (sep : string) (parts : list string) : string :=
  match parts with
  | [] => EmptyString
  | [p] => p
  | p :: rest => p ++ sep ++ str_join sep rest
  end.

(** [s.split(c)] for a one-character separator: the pieces between the
    occurrences of [c], at least one piece. *)
Fixpoint str_split (c : ascii) (s : string) : list string :=
  match s with
  | EmptyString => [EmptyString]
  | String d s' =>
      if Ascii.eqb d c then EmptyString :: str_split c s'
      else
        match str_split c s' with
        | piece :: pieces => String d piece :: pieces
        | [] => [String d EmptyString]
        end
  end.

(** [s.replace(old, new)] for any [old].  [skip] counts the characters of
    a match still to be dropped.  With the empty [old], [new] goes before
    every character and after the last. *)
Fixpoint replace_go (old new s : string) (skip : nat) : string :=
  match s with
  | EmptyString => EmptyString
  | String c s' =>
      match skip with
      | S k => replace_go old new s' k
      | O =>
          if String.prefix old s
          then new ++ replace_go old new s' (String.length old - 1)
          else String c (replace_go old new s' 0)
      end
  end.

Fixpoint intersperse (new s : string) : string :=
  match s with
  | EmptyString => new
  | String c s' => new ++ String c (intersperse new s')
  end.

Definition str_replace (old new s : string) : string :=
  match old with
  | EmptyString => intersperse new s
  | _ => replace_go old new s 0
  end.

(** [os.path.basename(p)] on a POSIX host: what follows the last
    separator. *)
Definition basename (p : string) : string :=
  Py.slice_from p (Py.rfind Py.sep p + 1).

(** [os.path.join] applied to the unpacked list [parts]: it takes at least
    one component. *)
Definition join_all (parts : list string) : outcome string :=
  match parts with
  | [] => Raises (Exn TypeError "join() missing 1 required positional argument: 'a'")
  | a :: p => Returns (Py.join a p)
  end.

(** [list(range(start, stop, step))] *)
Definition range (start stop step : Z) : outcome (list Z) :=
  if step =? 0 then Raises (Exn ValueError "range() arg 3 must not be zero")
  else
    let n :=
      if 0 <? step
      then (if start <? stop then (stop - start - 1) / step + 1 else 0)
      else (if stop <? start then (start - stop - 1) / (- step) + 1 else 0) in
    Returns (map (fun k => start + Z.of_nat k * step) (seq 0 (Z.to_nat n))).

Definition newline : string := String "010" EmptyString.

End PyText.

(** ** [mast/datapower/crypto/utils.py] *)

(** [insert_newlines(string, every)]: the slices [string[i:i+every]] for
    [i] in [range(0, len(string), every)], joined by newlines. *)
Definition insert_newlines (s : string) (every : Z) : outcome string :=
  idx ← PyText.range 0 (Z.of_nat (String.length s)) every;
  Returns (PyText.str_join PyText.newline (map (fun i => Py.slice s i (i + every)) idx)).

(** The lines of a text, for the statements: [text.split("\n")]. *)
Definition lines (text : string) : list string := PyText.str_split "010" text.

(** ** [mast/datapower/crypto/__init__.py]: the entry of [cert_audit] *)

(** The statements of [cert_audit] that examine [out_file] before anything
    else is done: [None] ends the process through [sys.exit(2)], an
    extension other than [.csv] and [.xlsx] raises [ValueError]. *)
Definition cert_audit_out_file (out_file : option string) : outcome string :=
  match out_file with
  | None => Raises (Exn SystemExit "2")
  | Some p =>
      let extension := (Py.splitext p).2 in
      if bool_decide (extension ∈ [".csv"; ".xlsx"]) then Returns extension
      else Raises (Exn ValueError "out_file must be either csv or xlsx")
  end.

(** ** [mast/logging/__init__.py] *)

(** [_escape(string)]: newlines and carriage returns removed, the single
    and the double quote replaced by their entities. *)
Definition _escape (s : string) : string :=
  Py.replace "034" "&quot;"
    (Py.replace "'" "&apos;"
       (Py.replace "013" ""
          (Py.replace "010" "" s))).

(** [_format_kwargs(kwargs)]; [repr] is Python's rendering of the
    dictionary. *)
Definition _format_kwargs (repr : gmap string pyval → string) (kwargs : gmap string pyval)
  : string :=
  PyText.str_replace ": " "="
    (PyText.str_replace "}" ""
       (PyText.str_replace "{" "" (repr kwargs))).

(** ** [plugin_functions.py]: the rest of the module *)

(** [_zipdir]: the name a file [f] found in directory [root] gets inside
    the archive: [os.path.join(root, f)] is split at the separators, the
    first two pieces are dropped and the others joined again. *)
Definition zip_member_name (root f : string) : outcome string :=
  PyText.join_all (drop 2 (PyText.str_split Py.sep (Py.join root [f]))).

(** What [html] hands to the templates: a category label or a button. *)
Inductive html_item : Type :=
| CategoryLabel (category : string)
| DynButton (plugin callable : string).

(** [command_list[category]] *)
Fixpoint commands_of (cl : command_list) (category : string) : list command :=
  match cl with
  | [] => []
  | (c, items) :: rest => if String.eqb c category then items else commands_of rest category
  end.

(** The inner loop of [html] over the commands of one category; the state
    is [last_category]. *)
Fixpoint html_buttons (plugin category : string) (items : list command) (last_category : string)
  : list html_item * string :=
  match items with
  | [] => ([], last_category)
  | it :: rest =>
      let callable_name := Py.replace "_" " " (__name__ it) in
      let label :=
        if String.eqb category last_category then [] else [CategoryLabel category] in
      let '(htm, last) := html_buttons plugin category rest category in
      ((label ++ DynButton plugin callable_name :: htm)%list, last)
  end.

(** The outer loop, [for category in sorted(command_list)]. *)
Fixpoint html_categories (plugin : string) (cl : command_list) (categories : list string)
    (last_category : string) : list html_item :=
  match categories with
  | [] => []
  | category :: rest =>
      let '(htm, last) := html_buttons plugin category (commands_of cl category) last_category in
      (htm ++ html_categories plugin cl rest last)%list
  end.

(** [html(plugin)]: the pieces joined into the plugin's tab, in order. *)
Definition html (cat : catalog) (plugin : string) : outcome (list html_item) :=
  module ← get_module cat (PyText.str_replace "mast.datapower." "" plugin);
  Returns (html_categories plugin module (merge_sort String.le module.*1) "").

(** The list of [get_form] a control is appended to: [textboxes],
    [selects], [file_uploads] or [checkboxes]. *)
Inductive control_list : Type := Textboxes | Selects | FileUploads | Checkboxes.

#[global] Instance control_list_eq_dec : EqDecision control_list.
Proof. solve_decision. Defined.

Definition list_of (c : control) : control_list :=
  match c with
  | Checkbox _ => Checkboxes
  | MultiText | PasswordBox _ | TextBox _ => Textboxes
  | FileUpload => FileUploads
  | _ => Selects
  end.

(** The controls of the parameters in declaration order, each with its
    parameter name: what the loop of [get_form] appends, list by list. *)
Definition controls (table : list string) (arguments : list (string * pyval))
  : list (string * control) :=
  omap (fun p => pair p.1 <$> get_form_control table p.1 p.2) arguments.

(** [get_form(plugin, fn_name, ...)]: the label of the form and its
    controls in the order in which [forms] is extended: text boxes,
    selects, file uploads, check boxes.  [fn_name] is [None] when the
    request has no [callable]; [fn_name.replace] then fails before the
    lookup. *)
Definition get_form (cat : catalog) (table : list string) (plugin : string)
    (fn_name : option string) : outcome (string * list (string * control)) :=
  match fn_name with
  | None => Raises (Exn AttributeError "'NoneType' object has no attribute 'replace'")
  | Some n =>
      let label := Py.replace "_" " " n in
      '(arguments, fn) ← _get_arguments cat plugin fn_name;
      let cs := controls table arguments in
      let only l := filter (fun kc => list_of kc.2 = l) cs in
      Returns (label,
               (only Textboxes ++ only Selects ++ only FileUploads ++ only Checkboxes)%list)
  end.

(** A further command for the scenarios:
    [def rename(name, force=False, web=False)], with a parameter that has
    no default. *)
Definition rename : command :=
  Command "rename" ["name"; "force"; "web"] (Some [VBool false; VBool false]) answers.

(** [def version()]: no parameter, so no defaults. *)
Definition version : command :=
  Command "version" [] None answers.

Definition crowded_catalog : catalog :=
  {[ "system" := [("monitoring", [status; version]); ("", [rename]);
                  ("appliance", [reboot; ping])] ]}.

(** ** Vocabulary of the further statements *)

(** The character [c] occurs in [s]. *)
Fixpoint occurs (c : ascii) (s : string) : bool :=
  match s with
  | EmptyString => false
  | String d s' => Ascii.eqb d c || occurs c s'
  end.

(** [s[n:]] with a natural index. *)
Fixpoint string_drop (n : nat) (s : string) : string :=
  match n, s with
  | O, _ => s
  | S n', String _ s' => string_drop n' s'
  | S _, EmptyString => EmptyString
  end.

(** What a text box shows for its initial value: [str(value)] of a string
    or an integer. *)
Definition shown (value : pyval) : option string :=
  match value with
  | VStr s => Some s
  | VInt z => Py.str_int z
  | _ => None
  end.

(** What [html] emits for one category once the state [last_category] is
    accounted for: a label unless the category is named by the empty
    string or has no command, then one button per command. *)
Definition category_block (plugin : string) (cl : command_list) (category : string)
  : list html_item :=
  let items := commands_of cl category in
  ((if bool_decide (category = "" ∨ items = []) then [] else [CategoryLabel category])
   ++ map (fun it => DynButton plugin (Py.replace "_" " " (__name__ it))) items)%list.

(** Every character of [s] satisfies [P]. *)
Fixpoint string_forallb (P : ascii -> bool) (s : string) : bool :=
  match s with
  | EmptyString => true
  | String c s' => P c && string_forallb P s'
  end.

(** The text a box is rendered with: what a text box shows, the value of
    a password box. *)
Definition initial_value (c : control) : option string :=
  match c with
  | TextBox v => shown v
  | PasswordBox s => Some s
  | _ => None
  end.

(** The slices of [s] taken at the first [m] multiples of [e], each [e]
    characters long at most. *)
Definition slices (e : nat) (s : string) (m : nat) : list string :=
  map (fun k => substring (k * e) e s) (seq 0 m).

(** How many indices [range(0, len, every)] yields. *)
Definition slice_count (len : nat) (every : Z) : nat :=
  Z.to_nat (if 0 <? Z.of_nat len then (Z.of_nat len - 0 - 1) / every + 1 else 0).

(** A path component in the strict sense: not empty and free of the
    separator. *)
Definition component (p : string) : Prop := p ≠ "" ∧ occurs Py.sep p = false.

(** The body of a certificate, for the scenarios. *)
Definition pem_body : string := "MIIDdzCCAl+gAwIBAgIEAgAAuTANBgkq".

(** * Properties *)

(** ** The credential codec *)

Module XorFacts.
Import Xor.

Lemma byte_log2 (n : N) : (n < 256)%N → (N.log2 n < 8)%N.
Proof.
  intros Hn. destruct (N.eq_dec n 0) as [->|Hpos]; [reflexivity|].
  apply N.log2_lt_pow2; [lia | exact Hn].
Qed.

Lemma lxor_byte (a b : ascii) : (N.lxor (N_of_ascii a) (N_of_ascii b) < 256)%N.
Proof.
  pose proof (N_ascii_bounded a) as Ha. pose proof (N_ascii_bounded b) as Hb.
  set (x := N.lxor (N_of_ascii a) (N_of_ascii b)).
  destruct (N.eq_dec x 0) as [->|Hx]; [reflexivity|].
  change 256%N with (2 ^ 8)%N. apply N.log2_lt_pow2; [lia|].
  pose proof (N.log2_lxor (N_of_ascii a) (N_of_ascii b)) as Hl.
  apply byte_log2 in Ha. apply byte_log2 in Hb. fold x in Hl. lia.
Qed.

Lemma xor_ascii_cancel (a k : ascii) : xor_ascii (xor_ascii a k) k = a.
Proof.
  unfold xor_ascii.
  rewrite N_ascii_embedding by apply lxor_byte.
  rewrite N.lxor_assoc, N.lxor_nilpotent, N.lxor_0_r.
  apply ascii_N_embedding.
Qed.

(** Both passes walk the key in step, so they meet the same key
    character at every position. *)
Lemma xor_stream_cancel (key : string) :
  key ≠ EmptyString →
  ∀ text rest, xor_stream key rest (xor_stream key rest text) = text.
Proof.
  intros Hkey. induction text as [|c text IH]; intros rest; [reflexivity|].
  destruct rest as [|k rest]; simpl.
  - destruct key as [|k key']; [congruence|].
    simpl. now rewrite xor_ascii_cancel, IH.
  - now rewrite xor_ascii_cancel, IH.
Qed.

Lemma xor_stream_length (key : string) :
  key ≠ EmptyString →
  ∀ text rest, String.length (xor_stream key rest text) = String.length text.
Proof.
  intros Hkey. induction text as [|c text IH]; intros rest; [reflexivity|].
  destruct rest as [|k rest]; simpl.
  - destruct key as [|k key']; [congruence|]. simpl. now rewrite IH.
  - now rewrite IH.
Qed.

(** With an empty key nothing comes out, whatever goes in. *)
Lemma xorencode_empty_key (s : string) : xorencode s "" = "".
Proof. now destruct s. Qed.

End XorFacts.

(** C9. The credential codec is a reversible session-keyed transform: for
    every printable-ASCII plaintext [s] and every non-empty key [k],
    decoding under [k] the encoding of [s] under [k] gives [s] back. *)
Theorem xordecode_xorencode (s k : string) :
  Xor.printable_string s = true →
  k ≠ "" →
  Xor.xordecode (Xor.xorencode s k) k = s.
Proof.
  intros _ Hk. unfold Xor.xordecode, Xor.xorencode.
  now apply XorFacts.xor_stream_cancel.
Qed.

Lemma xordecode_xorencode_witness :
  Xor.printable_string "admin:s3cret" = true ∧
  "9x4h" ≠ "" ∧
  Xor.xordecode (Xor.xorencode "admin:s3cret" "9x4h") "9x4h" = "admin:s3cret".
Proof.
  split; [reflexivity|]. split; [discriminate|].
  apply (xordecode_xorencode "admin:s3cret" "9x4h"); [reflexivity | discriminate].
Defined.

(** ** Paths *)

Module PyFacts.
Import Py.

(** On a POSIX host [path.replace(os.path.sep, "/")] changes nothing. *)
Lemma replace_sep (s : string) : replace sep "/" s = s.
Proof.
  induction s as [|c s IH]; [reflexivity|].
  simpl. rewrite IH. destruct (Ascii.eqb_spec c sep) as [->|]; reflexivity.
Qed.

Lemma append_assoc (a b c : string) : (a ++ b) ++ c = a ++ b ++ c.
Proof.
  induction a as [|x a IH]; [reflexivity|].
  change (String x ((a ++ b) ++ c) = String x (a ++ b ++ c)). now rewrite IH.
Qed.

Lemma app_not_empty (p n : string) : n ≠ "" → p ++ n ≠ "".
Proof. destruct p; simpl; [tauto | discriminate]. Qed.

Lemma endswith_sep_app (p n : string) :
  n ≠ "" → endswith_sep (p ++ n) = endswith_sep n.
Proof.
  intros Hn. induction p as [|c p IH]; [reflexivity|].
  simpl. destruct (p ++ n) eqn:E; [|exact IH].
  now apply app_not_empty in E.
Qed.

Lemma startswith_sep_app (t rest : string) :
  startswith_sep t = false →
  startswith_sep (t ++ "-" ++ rest) = false.
Proof. now destruct t. Qed.

(** When neither component starts a new absolute path nor brings its own
    separator, [os.path.join] puts one separator between them. *)
Lemma join_staging (n last : string) :
  n ≠ "" → startswith_sep n = false → endswith_sep n = false →
  startswith_sep last = false →
  join "tmp" ["web"; n; last] = "tmp/web/" ++ n ++ "/" ++ last.
Proof.
  intros Hn Hs He Hl. unfold join. cbn [fold_left].
  change (join_step "tmp" "web") with "tmp/web".
  assert (join_step "tmp/web" n = "tmp/web/" ++ n) as ->.
  { unfold join_step. now rewrite Hs. }
  unfold join_step. rewrite Hl.
  rewrite (endswith_sep_app "tmp/web/" n Hn), He.
  change ("tmp/web/" ++ n) with (String "t" ("mp/web/" ++ n)).
  cbn [String.eqb orb]. exact (append_assoc "tmp/web/" n (String sep last)).
Qed.

End PyFacts.

Example splitext_report : Py.splitext "report.xlsx" = ("report", ".xlsx").
Proof. reflexivity. Qed.

Example splitext_hidden : Py.splitext ".profile" = (".profile", "").
Proof. reflexivity. Qed.

Example splitext_dotted_directory : Py.splitext "out.d/report" = ("out.d/report", "").
Proof. reflexivity. Qed.

Example join_absolute : Py.join "tmp" ["web"; "/etc"; "x"] = "/etc/x".
Proof. reflexivity. Qed.

Example int_literals :
  Py.parse_int " -1_000 " = Some (-1000) ∧ Py.parse_int "007" = Some 7 ∧
  Py.parse_int "" = None ∧ Py.parse_int "1__0" = None ∧ Py.parse_int "five" = None.
Proof. repeat split; reflexivity. Qed.

(** ** The Field Classifier *)

(** Among the parameters whose default has a known type, [get_form]
    renders nothing exactly for the skipped ones. *)
Lemma skipped_no_control (table : list string) (key : string) (value : pyval) :
  supported value = true →
  get_form_control table key value = None ↔ skipped key value = true.
Proof.
  intros Hsup. destruct value as [|b|z|s|l|m e]; cbn [get_form_control skipped];
    try discriminate.
  - destruct (String.eqb key "out_file"); [tauto|].
    destruct (String.eqb key "file_in"); split; discriminate.
  - destruct (String.eqb key "web"); [tauto|]. destruct b; split; discriminate.
  - split; discriminate.
  - destruct (String.eqb key "out_dir"); [tauto|].
    destruct (String.eqb key "out_file"); [tauto|]. cbn [orb].
    repeat (case_match; try (split; discriminate)).
  - destruct (String.eqb key "appliances" || String.eqb key "credentials"); [tauto|].
    repeat (case_match; try (split; discriminate)).
Qed.

(** ** The Value Coercer *)

(** Unfolds the sequencing of [outcome]. *)
Ltac unfold_bind := unfold mbind, outcome_bind, mret, outcome_ret in *.

(** Splits on the first [if] or [match] scrutinee that stands in the way. *)
Ltac split_outcome :=
  match goal with
  | H : context [if ?b then _ else _] |- _ => destruct b eqn:?
  | H : context [match ?o with Returns _ => _ | Raises _ => _ end] |- _ => destruct o eqn:?
  | |- context [if ?b then _ else _] => destruct b eqn:?
  | |- context [match ?o with Returns _ => _ | Raises _ => _ end] => destruct o eqn:?
  end.

(** The loops of [_get_arguments] bind [args], [defaults] and [item]
    together, at the command with the name: either nothing is bound to
    [args] yet, or all three come from one command. *)
Lemma scan_items_bound (fn_name : option string) (items : list command) : ∀ st,
  argspec st = None → found st = false →
  (argspec (scan_items fn_name items st) = None ∧
   found (scan_items fn_name items st) = false) ∨
  ∃ it, scan_items fn_name items st = Locals true (Some (args it, defaults it)) (Some it).
Proof.
  induction items as [|x items IH]; intros st Ha Hf; cbn [scan_items]; [auto|].
  destruct (name_matches x fn_name); [eauto|]. now apply IH.
Qed.

Lemma scan_categories_bound (fn_name : option string) (cl : command_list) : ∀ st,
  argspec st = None → found st = false →
  argspec (scan_categories fn_name cl st) = None ∨
  ∃ it, scan_categories fn_name cl st = Locals true (Some (args it, defaults it)) (Some it).
Proof.
  induction cl as [|[category items] cl IH]; intros st Ha Hf; cbn [scan_categories]; [auto|].
  rewrite Hf. destruct (scan_items_bound fn_name items st Ha Hf) as [[Ha' Hf'] | [it Hit]].
  - now apply IH.
  - right. exists it. rewrite Hit. now destruct cl as [|[c its] cl'].
Qed.

(** The descriptor [_get_arguments] returns is [zip(args, defaults)] of
    the command it returns. *)
Lemma descriptor_is_zip (cat : catalog) (plugin : string) (fn_name : option string)
    (arguments : list (string * pyval)) (cmd : command) :
  _get_arguments cat plugin fn_name = Returns (arguments, cmd) →
  ∃ ds, defaults cmd = Some ds ∧ arguments = zip (args cmd) ds.
Proof.
  unfold _get_arguments, get_module. destruct (cat !! plugin) as [module|]; [|discriminate].
  unfold_bind.
  destruct (scan_categories_bound fn_name module (Locals false None None) eq_refl eq_refl)
    as [-> | [it ->]]; [discriminate|].
  cbn. destruct (defaults it) as [ds|] eqn:Hds; [|discriminate].
  cbn. intros [= <- <-]. eauto.
Qed.

Lemma filter_supported_zip (a : list string) : ∀ ds : list pyval,
  Forall (λ d, supported d) ds →
  filter (λ p : string * pyval, supported p.2) (zip a ds) = zip a ds.
Proof.
  induction a as [|x a IH]; intros [|d ds] Hall; try reflexivity.
  apply Forall_cons in Hall as [Hd Hall]. cbn [zip zip_with].
  rewrite filter_cons_True by exact Hd. now rewrite IH.
Qed.

Section Coercer.

Context (rt : runtime) (req : request) (name : option string) (timestamp : string).

Local Abbreviation coerce' := (coerce rt req name timestamp).
Local Abbreviation build_kwargs' := (build_kwargs rt req name timestamp).

(** A parameter gets an entry exactly when its default has a type the
    chain knows. *)
Lemma coerce_assigns (arg : string) (d : pyval) (v : option pyval) :
  coerce' arg d = Returns v →
  if supported d then is_Some v else v = None.
Proof.
  destruct d; cbn [coerce supported]; unfold_bind; intros H;
    repeat split_outcome; simplify_eq; eauto.
Qed.

Lemma build_kwargs_cons (arg : string) (d : pyval) rest kwargs :
  build_kwargs' ((arg, d) :: rest) kwargs =
  match coerce' arg d with
  | Returns (Some x) => build_kwargs' rest (<[arg := x]> kwargs)
  | Returns None => build_kwargs' rest kwargs
  | Raises e => Raises e
  end.
Proof.
  cbn [build_kwargs]. unfold_bind. destruct (coerce' arg d) as [[x|]|e]; reflexivity.
Qed.

(** The keys of the mapping: those it started with and the names of the
    parameters whose default has a known type. *)
Lemma build_kwargs_dom arguments : ∀ kwargs kw,
  build_kwargs' arguments kwargs = Returns kw →
  dom kw = dom kwargs ∪ list_to_set (filter (λ p, supported p.2) arguments).*1.
Proof.
  induction arguments as [|[arg d] rest IH]; intros kwargs kw H.
  - cbn in H. simplify_eq. cbn. now rewrite union_empty_r_L.
  - rewrite build_kwargs_cons in H.
    destruct (coerce' arg d) as [v|e] eqn:E; [|discriminate].
    apply coerce_assigns in E.
    destruct (supported d) eqn:Hd.
    + destruct E as [x ->]. apply IH in H. rewrite H, dom_insert_L.
      rewrite filter_cons_True by (cbn; now rewrite Hd).
      cbn [fmap list_fmap list_to_set fst].
      rewrite (assoc_L (∪)). f_equal. apply (comm_L (∪)).
    + subst v. apply IH in H. rewrite H.
      rewrite filter_cons_False by (cbn; now rewrite Hd). reflexivity.
Qed.

(** Keys that name no parameter are left as they were. *)
Lemma build_kwargs_other arguments : ∀ kwargs kw (k : string),
  build_kwargs' arguments kwargs = Returns kw →
  k ∉ arguments.*1 →
  kw !! k = kwargs !! k.
Proof.
  induction arguments as [|[arg d] rest IH]; intros kwargs kw k H Hk.
  - cbn in H. now simplify_eq.
  - rewrite build_kwargs_cons in H. cbn in Hk.
    apply not_elem_of_cons in Hk as [Hne Hk].
    destruct (coerce' arg d) as [[x|]|e]; [| |discriminate].
    + rewrite (IH _ _ _ H Hk). now apply lookup_insert_ne.
    + exact (IH _ _ _ H Hk).
Qed.

(** With the parameter names pairwise distinct, as Python requires of a
    signature, the entry of a parameter is what its own turn of the loop
    assigned. *)
Lemma build_kwargs_lookup arguments : ∀ kwargs kw (arg : string) (d : pyval),
  build_kwargs' arguments kwargs = Returns kw →
  NoDup arguments.*1 →
  (arg, d) ∈ arguments →
  ∃ v, coerce' arg d = Returns v ∧
       kw !! arg = match v with Some x => Some x | None => kwargs !! arg end.
Proof.
  induction arguments as [|[a d'] rest IH]; intros kwargs kw arg d H Hnd Hin.
  - now apply elem_of_nil in Hin.
  - rewrite build_kwargs_cons in H. cbn in Hnd.
    apply NoDup_cons in Hnd as [Hfresh Hnd].
    apply elem_of_cons in Hin as [Heq|Hin].
    + simplify_eq.
      destruct (coerce' a d') as [[x|]|e]; [| |discriminate]; eexists; split; eauto.
      * rewrite (build_kwargs_other _ _ _ _ H Hfresh). apply lookup_insert_eq.
      * exact (build_kwargs_other _ _ _ _ H Hfresh).
    + assert (a ≠ arg) as Hne.
      { intros ->. apply Hfresh. apply list_elem_of_fmap. now exists (arg, d). }
      destruct (coerce' a d') as [[x|]|e]; [| |discriminate].
      * destruct (IH _ _ _ _ H Hnd Hin) as (v & Hv & Hkw).
        exists v. split; [exact Hv|]. rewrite Hkw.
        destruct v; [reflexivity|]. now apply lookup_insert_ne.
      * exact (IH _ _ _ _ H Hnd Hin).
Qed.

(** The loop returns when every turn does. *)
Lemma build_kwargs_returns arguments : ∀ kwargs,
  Forall (λ p, ∃ v, coerce' p.1 p.2 = Returns v) arguments →
  ∃ kw, build_kwargs' arguments kwargs = Returns kw.
Proof.
  induction arguments as [|[arg d] rest IH]; intros kwargs Hall.
  - now exists kwargs.
  - apply Forall_cons in Hall as [[v Hv] Hall]. cbn in Hv.
    rewrite build_kwargs_cons, Hv. destruct v; apply IH, Hall.
Qed.

Lemma comprehension_returns {A B} (f : A → outcome B) (l : list A) :
  (∀ a, a ∈ l → ∃ b, f a = Returns b) →
  ∃ bs, comprehension f l = Returns bs.
Proof.
  induction l as [|a l IH]; intros Hf; [now exists []|].
  destruct (Hf a) as [b Hb]; [apply elem_of_cons; now left|].
  destruct IH as [bs Hbs]; [intros a' Ha'; apply Hf, elem_of_cons; now right|].
  exists (b :: bs). cbn. unfold_bind. now rewrite Hb, Hbs.
Qed.

(** A turn returns on a well-formed submission. *)
Lemma coerce_returns (arg : string) (d : pyval) :
  well_formed_for rt req name arg d →
  ∃ v, coerce' arg d = Returns v.
Proof.
  destruct d as [|b|z0|d|l|m e]; cbn [coerce well_formed_for]; intros Hwf.
  - eauto.
  - repeat split_outcome; eauto.
  - destruct Hwf as (s & z & -> & Hz). cbn [Py.int]. rewrite Hz.
    unfold_bind. eauto.
  - destruct (String.eqb_spec arg "out_dir") as [->|Hdir].
    { destruct Hwf as [n ->]; [now left|]. unfold_bind. cbn. eauto. }
    destruct (String.eqb_spec arg "out_file") as [->|Hfile]; [|eauto].
    destruct Hwf as [n ->]; [now right|]. unfold_bind. cbn. eauto.
  - destruct (String.eqb_spec arg "appliances") as [->|Happ]; [eauto|].
    destruct (String.eqb_spec arg "credentials") as [->|Hcred]; [|eauto].
    destruct Hwf as (k & Hk & Hdec); [reflexivity|].
    edestruct (comprehension_returns (decode_credential rt req)
      (getlist (form req) ("credentials" ++ "[]"))) as [bs Hbs].
    { intros c Hc. destruct (Hdec c Hc) as [s Hs].
      unfold decode_credential, cookie. rewrite Hk. unfold_bind. rewrite Hs. eauto. }
    unfold_bind. rewrite Hbs. eauto.
  - eauto.
Qed.

(** C6, as the code has it.  For a string-defaulted [out_file] the
    coerced value is
    [tmp/web/{name}/{timestamp}-{name}{extension of the default}],
    whenever the command name is not empty and neither starts nor ends
    with a separator and the time stamp does not start with one; the
    whole time stamp stands in the file name. *)
Theorem out_file_synthesized (n d : string) :
  name = Some n →
  n ≠ "" →
  Py.startswith_sep n = false →
  Py.endswith_sep n = false →
  Py.startswith_sep timestamp = false →
  coerce' "out_file" (VStr d) =
    Returns (Some (VStr ("tmp/web/" ++ n ++ "/" ++ timestamp ++ "-" ++ n ++ (Py.splitext d).2))).
Proof.
  intros -> Hn Hs He Ht. cbn [coerce String.eqb Ascii.eqb Bool.eqb].
  cbn [staging_path out_file_name default]. unfold_bind.
  rewrite PyFacts.replace_sep, PyFacts.join_staging; auto.
  now apply PyFacts.startswith_sep_app.
Qed.

(** X28.  The sibling path [out_dir]: [tmp/web/{name}/{timestamp}]. *)
Lemma out_dir_synthesized (n d : string) :
  name = Some n →
  n ≠ "" →
  Py.startswith_sep n = false →
  Py.endswith_sep n = false →
  Py.startswith_sep timestamp = false →
  coerce' "out_dir" (VStr d) = Returns (Some (VStr ("tmp/web/" ++ n ++ "/" ++ timestamp))).
Proof.
  intros -> Hn Hs He Ht. cbn [coerce String.eqb Ascii.eqb Bool.eqb staging_path].
  unfold_bind. now rewrite PyFacts.join_staging.
Qed.

(** C3, the failing case.  For an integer default with the field absent
    from the submission, [int(form.get(arg))] is [int(None)]: the turn
    raises [TypeError], and so does the loop as soon as it reaches the
    parameter; no value is coerced. *)
Theorem int_field_absent_raises (arg : string) (z : Z) rest kwargs :
  get (form req) arg = None →
  raised (coerce' arg (VInt z)) = Some TypeError ∧
  raised (build_kwargs' ((arg, VInt z) :: rest) kwargs) = Some TypeError.
Proof.
  intros Hget. rewrite build_kwargs_cons. cbn [coerce]. now rewrite Hget.
Qed.

(** The case of C3 that holds: a literal that parses to zero falls back
    to the default. *)
Lemma int_zero_falls_back (arg s : string) (z : Z) :
  get (form req) arg = Some s →
  Py.parse_int s = Some 0 →
  coerce' arg (VInt z) = Returns (Some (VInt z)).
Proof.
  intros Hget Hz. cbn [coerce]. rewrite Hget. cbn [Py.int]. now rewrite Hz.
Qed.

(** Any other literal is taken as submitted. *)
Lemma int_nonzero_taken (arg s : string) (z z' : Z) :
  get (form req) arg = Some s →
  Py.parse_int s = Some z' →
  z' ≠ 0 →
  coerce' arg (VInt z) = Returns (Some (VInt z')).
Proof.
  intros Hget Hz Hne. cbn [coerce]. rewrite Hget. cbn [Py.int]. rewrite Hz.
  unfold_bind. unfold py_or. cbn [truthy].
  now destruct (Z.eqb_spec z' 0).
Qed.

(** X29.  An ASCII text that is not an integer literal, or is one of
    more digits than [int()] takes, raises [ValueError]; the empty string
    of a cleared text box is such. *)
Lemma int_not_a_literal_raises (arg s : string) (z : Z) :
  get (form req) arg = Some s →
  Py.is_ascii s = true →
  Py.parse_int s = None →
  raised (coerce' arg (VInt z)) = Some ValueError.
Proof.
  intros Hget _ Hz. cbn [coerce]. rewrite Hget. cbn [Py.int]. now rewrite Hz.
Qed.

(** C7, as the code has it.  For a boolean default the turn never
    raises; the coerced value is true for the name [web], and otherwise
    true exactly when the first value submitted for the field is the
    string [true].  With distinct parameter names that is the entry the
    finished mapping holds. *)
Theorem boolean_coerced (arg : string) (b : bool) :
  let coerced :=
    VBool (String.eqb arg "web" || bool_decide (get (form req) arg = Some "true")) in
  coerce' arg (VBool b) = Returns (Some coerced) ∧
  ∀ arguments kw,
    NoDup arguments.*1 →
    (arg, VBool b) ∈ arguments →
    build_kwargs' arguments ∅ = Returns kw →
    kw !! arg = Some coerced.
Proof.
  intros coerced.
  assert (coerce' arg (VBool b) = Returns (Some coerced)) as Hturn.
  { subst coerced. cbn [coerce]. destruct (String.eqb arg "web"); [reflexivity|].
    now destruct (bool_decide _). }
  split; [exact Hturn|]. intros arguments kw Hnd Hin Hkw.
  destruct (build_kwargs_lookup _ _ _ _ _ Hkw Hnd Hin) as (v & Hv & ->).
  rewrite Hturn in Hv. now simplify_eq.
Qed.

(** C2, as the code has it.  The loop runs over the descriptor, which
    pairs the parameter names of the resolved command with its defaults
    position by position.  Whenever the loop completes, the keys of the
    mapping are exactly the names the descriptor pairs with a [bool], a
    [list], a [str], an [int] or [None]; a name paired with a default of
    another type, a float say, gets no key.  The loop does complete on a
    well-formed submission.  So the keys are the declared parameter names
    when every parameter has a default and each default is of a known
    type, and in general only then. *)
Theorem kwargs_keys (cat : catalog) (plugin : string)
    (arguments : list (string * pyval)) (cmd : command) :
  _get_arguments cat plugin name = Returns (arguments, cmd) →
  ∃ ds,
    defaults cmd = Some ds ∧
    arguments = zip (args cmd) ds ∧
    let keys : gset string :=
      list_to_set (filter (λ p, supported p.2) (zip (args cmd) ds)).*1 in
    (∀ kw, build_kwargs' arguments ∅ = Returns kw → dom kw = keys) ∧
    (Forall (λ p, well_formed_for rt req name p.1 p.2) arguments →
     ∃ kw, build_kwargs' arguments ∅ = Returns kw ∧ dom kw = keys) ∧
    (List.length ds = List.length (args cmd) →
     Forall (λ d, supported d) ds →
     keys = list_to_set (args cmd)).
Proof.
  intros Hget. destruct (descriptor_is_zip _ _ _ _ _ Hget) as (ds & Hds & ->).
  exists ds. split; [exact Hds|]. split; [reflexivity|]. intros keys.
  assert (∀ kw, build_kwargs' (zip (args cmd) ds) ∅ = Returns kw → dom kw = keys) as Hdom.
  { intros kw Hkw. rewrite (build_kwargs_dom _ _ _ Hkw), dom_empty_L.
    apply (left_id_L ∅ (∪)). }
  split; [exact Hdom|]. split.
  - intros Hwf.
    destruct (build_kwargs_returns (zip (args cmd) ds) ∅) as [kw Hkw].
    { eapply Forall_impl; [exact Hwf|]. intros [arg d]. apply coerce_returns. }
    exists kw. split; [exact Hkw | exact (Hdom kw Hkw)].
  - intros Hlen Hall. unfold keys.
    rewrite (filter_supported_zip _ _ Hall), fst_zip by lia. reflexivity.
Qed.

(** C5, as the code has it.  Whenever the loop completes, every skipped
    parameter has an entry; the entry is not the descriptor default but
    what the loop computes for it: [True] for [web], the submitted
    [appliances[]], the decoded [credentials[]], the synthesized path
    for [out_dir] and a string-defaulted [out_file], and
    [form.get("out_file") or None] for an [out_file] defaulting to
    [None]. *)
Theorem skipped_present (arguments : list (string * pyval)) kw (arg : string) (d : pyval) :
  skipped arg d = true →
  NoDup arguments.*1 →
  (arg, d) ∈ arguments →
  build_kwargs' arguments ∅ = Returns kw →
  ∃ v, kw !! arg = Some v ∧ skipped_value rt req name timestamp arg d v.
Proof.
  intros Hskip Hnd Hin Hkw.
  destruct (build_kwargs_lookup _ _ _ _ _ Hkw Hnd Hin) as (v & Hv & ->).
  destruct d as [|b|z|d|l|m e]; cbn [skipped] in Hskip; try discriminate;
    cbn [coerce skipped_value] in *.
  - apply String.eqb_eq in Hskip as ->. simplify_eq. eauto.
  - rewrite Hskip in Hv. simplify_eq. eauto.
  - apply orb_true_iff in Hskip as [->%String.eqb_eq | ->%String.eqb_eq];
      cbn [String.eqb Ascii.eqb Bool.eqb] in *; unfold_bind;
      destruct name as [n|]; cbn [staging_path out_file_name default] in Hv;
      simplify_eq; rewrite ?PyFacts.replace_sep; eauto.
  - apply orb_true_iff in Hskip as [->%String.eqb_eq | ->%String.eqb_eq];
      cbn [String.eqb Ascii.eqb Bool.eqb] in *; unfold_bind.
    + simplify_eq. eauto.
    + destruct (comprehension _ _) as [l'|] eqn:E; simplify_eq. eauto.
Qed.

End Coercer.

(** ** The Command Catalog *)

Section Catalog.

Context (fn_name : option string).

Local Abbreviation absent_from := (absent_from fn_name).

Lemma scan_items_absent items : ∀ st,
  absent_from items →
  found (scan_items fn_name items st) = found st ∧
  argspec (scan_items fn_name items st) = argspec st.
Proof.
  induction items as [|it items IH]; intros st Habs; [now split|].
  apply Forall_cons in Habs as [Hit Habs].
  cbn [scan_items]. rewrite Hit.
  destruct (IH (Locals (found st) (argspec st) (Some it)) Habs) as [-> ->].
  now split.
Qed.

Lemma scan_categories_absent (cl : command_list) : ∀ st,
  Forall (λ c, absent_from c.2) cl →
  argspec (scan_categories fn_name cl st) = argspec st.
Proof.
  induction cl as [|[category items] cl IH]; intros st Habs; [reflexivity|].
  apply Forall_cons in Habs as [Hitems Habs].
  cbn [scan_categories]. destruct (found st); [reflexivity|].
  rewrite (IH _ Habs). now apply scan_items_absent.
Qed.

(** C8, as the code has it.  When no command of the plugin's category
    index has the name, the loops leave [args] unbound and the [return]
    statement raises [UnboundLocalError] to the caller: the lookup never
    succeeds, and the error is not a dedicated not-found one. *)
Theorem unknown_command_raises (cat : catalog) (plugin : string) (module : command_list) :
  cat !! plugin = Some module →
  Forall (λ c, absent_from c.2) module →
  raised (_get_arguments cat plugin fn_name) = Some UnboundLocalError.
Proof.
  intros Hplugin Habs. unfold _get_arguments, get_module. rewrite Hplugin.
  unfold_bind. now rewrite (scan_categories_absent _ _ Habs).
Qed.

End Catalog.

(** ** The Invoker *)

Section Invoker.

Context (rt : runtime) (timestamp : string) (rand : Z).
Context (func : behaviour (string * string)).

Local Abbreviation invoke := (_call_method rt timestamp rand func).
Local Abbreviation logged := (logged timestamp rand).

Lemma select_func_calls kwargs :
  calls_command kwargs = true → select_func func kwargs = Returns func.
Proof.
  unfold calls_command, first_appliance, select_func.
  destruct (kwargs !! "appliances") as [a|]; [|reflexivity].
  cbn. destruct (Py.getitem0 a) as [first|]; [|discriminate].
  unfold_bind. intros Hfirst. now rewrite Hfirst.
Qed.

Lemma select_func_evaluates kwargs :
  guard_evaluates kwargs = true → ∃ f, select_func func kwargs = Returns f.
Proof.
  unfold guard_evaluates, first_appliance, select_func.
  destruct (kwargs !! "appliances") as [a|]; [|eauto].
  cbn. destruct (Py.getitem0 a) as [first|]; [eauto|discriminate].
Qed.

Lemma unhandled_message_text (e : exn) :
  ∃ prefix, unhandled_message e = prefix ++ exn_str e.
Proof.
  exists ("Sorry, an unhandled exception occurred while " ++
          "performing action:" ++ String "010" (String "010" (String "009" " "))).
  reflexivity.
Qed.

(** C1, as the code has it.  With [web] among the arguments and the
    resolved command the one called, an exception of class [Exception]
    raised by the command does not leave the Invoker: the display output
    is the generic message ending in the exception text, the history
    written to the log is the formatted traceback, which also goes to
    the standard error stream.  What the command did in the world [w1]
    before it raised stays done. *)
Theorem exception_reported kwargs (w w1 : world) (e : exn) :
  is_Some (kwargs !! "web") →
  calls_command kwargs = true →
  func kwargs w = (Raises e, w1) →
  is_Exception (exn_class e) = true →
  invoke kwargs w =
    (Returns (Some (unhandled_message e, history_id timestamp rand)),
     logged (format_exc rt e) (World (files w1) (stderr w1 ++ [format_exc rt e]))) ∧
  ∃ prefix, unhandled_message e = prefix ++ exn_str e.
Proof.
  intros [v Hweb] Hcalls Hraise Hclass. split; [|apply unhandled_message_text].
  unfold _call_method. rewrite (select_func_calls _ Hcalls), Hweb, Hraise, Hclass.
  reflexivity.
Qed.

(** An exception outside [Exception] passes through the handler. *)
Lemma base_exception_propagates kwargs (w w1 : world) (e : exn) :
  is_Some (kwargs !! "web") →
  calls_command kwargs = true →
  func kwargs w = (Raises e, w1) →
  is_Exception (exn_class e) = false →
  invoke kwargs w = (Raises e, w1).
Proof.
  intros [v Hweb] Hcalls Hraise Hclass.
  unfold _call_method. now rewrite (select_func_calls _ Hcalls), Hweb, Hraise, Hclass.
Qed.

(** C4, the failing case.  With the empty list under [appliances] the
    guard itself fails: [kwargs["appliances"][0]] raises [IndexError]
    before any function is chosen, nothing is written and no message is
    returned. *)
Theorem empty_appliances_raises kwargs (w : world) :
  kwargs !! "appliances" = Some (VList []) →
  invoke kwargs w = (Raises (Exn IndexError "list index out of range"), w).
Proof.
  intros Happ. unfold _call_method, select_func. now rewrite Happ.
Qed.

(** X27.  What the guard does catch: a list whose first element is falsy,
    the empty string say.  The resolved command is then not called, whatever
    it is, and the fixed message is both output and history. *)
Lemma no_appliance_selected kwargs (w : world) (first : pyval) (others : list pyval) :
  kwargs !! "appliances" = Some (VList (first :: others)) →
  truthy first = false →
  is_Some (kwargs !! "web") →
  invoke kwargs w =
    (Returns (Some ("Must select at least one appliance.", history_id timestamp rand)),
     logged "Must select at least one appliance." w).
Proof.
  intros Happ Hfirst [v Hweb]. unfold _call_method, select_func.
  rewrite Happ. cbn [Py.getitem0]. unfold_bind. now rewrite Hfirst, Hweb.
Qed.



Lemma web_returns_pair kwargs (w : world) f :
  is_Some (kwargs !! "web") →
  select_func func kwargs = Returns f →
  (∀ e w1, f kwargs w = (Raises e, w1) → is_Exception (exn_class e) = true) →
  ∃ out w', invoke kwargs w = (Returns (Some (out, history_id timestamp rand)), w').
Proof.
  intros [v Hweb] Hsel Hexc. unfold _call_method. rewrite Hsel, Hweb.
  destruct (f kwargs w) as [[[out hist]|e] w1] eqn:E; [eauto|].
  rewrite (Hexc e w1 eq_refl). eauto.
Qed.

End Invoker.

(** ** The submission path *)

Lemma select_func_cases func kwargs f :
  select_func func kwargs = Returns f → f = func ∨ f = _func.
Proof.
  unfold select_func. destruct (kwargs !! "appliances") as [a|].
  - destruct (Py.getitem0 a) as [first|]; cbn; [|discriminate].
    destruct (truthy first); intros [= <-]; auto.
  - intros [= <-]. auto.
Qed.



(** * Scenarios *)

(** ** The Value Coercer on concrete submissions *)

(** Scenario D, with the path the code builds: the whole time stamp
    [20240101-000000] stands before the command name. *)
Lemma out_file_synthesized_witness :
  coerce sample_runtime no_request (Some "audit") "20240101-000000" "out_file" (VStr "report.xlsx")
  = Returns (Some (VStr "tmp/web/audit/20240101-000000-audit.xlsx")).
Proof.
  apply (out_file_synthesized sample_runtime no_request (Some "audit") "20240101-000000"
           "audit" "report.xlsx");
    [reflexivity | discriminate | reflexivity | reflexivity | reflexivity].
Defined.

(** C6 as stated: the path of Scenario D is not the one the spec gives,
    which drops the time of day and repeats the command name. *)
Lemma out_file_scenario_counterexample :
  coerce sample_runtime no_request (Some "audit") "20240101-000000" "out_file" (VStr "report.xlsx")
  ≠ Returns (Some (VStr "tmp/web/audit/20240101-audit-audit.xlsx")).
Proof. vm_compute. discriminate. Qed.

(** [{delay: int=5}] with no field [delay] submitted. *)
Lemma int_field_absent_raises_witness :
  get (form no_request) "delay" = None ∧
  raised (coerce sample_runtime no_request (Some "reboot") "20240101-000000" "delay" (VInt 5))
    = Some TypeError ∧
  raised (build_kwargs sample_runtime no_request (Some "reboot") "20240101-000000"
            [("delay", VInt 5)] ∅) = Some TypeError.
Proof.
  split; [reflexivity|].
  apply (int_field_absent_raises sample_runtime no_request (Some "reboot") "20240101-000000"
           "delay" 5 [] ∅).
  reflexivity.
Defined.

(** Scenario C: [{delay: int=5}] with [delay="0"] submitted gives 5. *)
Example delay_zero_gives_default :
  build_kwargs sample_runtime (Request {[ "delay" := ["0"] ]} ∅) (Some "reboot")
    "20240101-000000" [("delay", VInt 5)] ∅ = Returns {[ "delay" := VInt 5 ]}.
Proof. reflexivity. Qed.

Example delay_seven_is_taken :
  build_kwargs sample_runtime (Request {[ "delay" := ["7"] ]} ∅) (Some "reboot")
    "20240101-000000" [("delay", VInt 5)] ∅ = Returns {[ "delay" := VInt 7 ]}.
Proof. reflexivity. Qed.

(** A check box submitted as [true], next to the flag [web]. *)
Lemma boolean_coerced_witness :
  build_kwargs sample_runtime (Request {[ "force" := ["true"] ]} ∅) (Some "reboot")
    "20240101-000000" [("force", VBool false); ("web", VBool false)] ∅
  = Returns {[ "force" := VBool true; "web" := VBool true ]} ∧
  ({[ "force" := VBool true; "web" := VBool true ]} : gmap string pyval) !! "force"
  = Some (VBool true).
Proof.
  split; [reflexivity|].
  refine (proj2 (boolean_coerced sample_runtime (Request {[ "force" := ["true"] ]} ∅)
                   (Some "reboot") "20240101-000000" "force" false)
            [("force", VBool false); ("web", VBool false)] _ _ _ _).
  - compute_done.
  - apply list_elem_of_here.
  - reflexivity.
Defined.

(** C7 as stated: the browser's own check box value [on] is truthy, yet
    the coerced value is false; only the string [true] counts. *)
Lemma truthy_checkbox_counterexample :
  truthy (Py.of_option (get (form (Request {[ "force" := ["on"] ]} ∅)) "force")) = true ∧
  coerce sample_runtime (Request {[ "force" := ["on"] ]} ∅) (Some "reboot")
    "20240101-000000" "force" (VBool false) = Returns (Some (VBool false)).
Proof. split; reflexivity. Qed.

(** The descriptor [_get_arguments] gives for [reboot]. *)
Example reboot_descriptor :
  _get_arguments sample_catalog "system" (Some "reboot")
  = Returns ([("appliances", VList []); ("credentials", VList []);
              ("delay", VInt 5); ("web", VBool false)], reboot).
Proof. reflexivity. Qed.

Example reboot_kwargs :
  build_kwargs sample_runtime reboot_request (Some "reboot") "20240101-000000"
    [("appliances", VList []); ("credentials", VList []); ("delay", VInt 5); ("web", VBool false)] ∅
  = Returns {[ "appliances" := VList [VStr "dp1"];
               "credentials" := VList [VStr "admin:s3cret"];
               "delay" := VInt 7;
               "web" := VBool true ]}.
Proof. vm_compute. reflexivity. Qed.

(** The submission for [reboot] is well formed, the loop completes and
    the keys are the four parameter names. *)
Lemma kwargs_keys_witness :
  ∃ kw,
    build_kwargs sample_runtime reboot_request (Some "reboot") "20240101-000000"
      [("appliances", VList []); ("credentials", VList []); ("delay", VInt 5);
       ("web", VBool false)] ∅ = Returns kw ∧
    dom kw = {[ "appliances"; "credentials"; "delay"; "web" ]}.
Proof.
  destruct (kwargs_keys sample_runtime reboot_request (Some "reboot") "20240101-000000"
              sample_catalog "system"
              [("appliances", VList []); ("credentials", VList []); ("delay", VInt 5);
               ("web", VBool false)] reboot eq_refl)
    as (ds & Hds & _ & _ & Hwf & _).
  injection Hds as <-. destruct Hwf as (kw & Hkw & Hdom).
  - repeat apply Forall_cons_2; try apply Forall_nil_2; cbn [well_formed_for fst snd].
    + discriminate.
    + intros _. exists "cookie". split; [reflexivity|].
      intros c Hc. eexists. reflexivity.
    + exists "7", 7. split; reflexivity.
    + exact I.
  - exists kw. split; [exact Hkw|]. rewrite Hdom. compute_done.
Defined.

(** C2 as stated: a parameter defaulting to the float [0.5] is declared
    by the callable and missing from the mapping. *)
Lemma float_default_counterexample :
  build_kwargs sample_runtime no_request (Some "throttle") "20240101-000000"
    [("web", VBool false); ("ratio", VFloat 1 (-1))] ∅
  = Returns {[ "web" := VBool true ]} ∧
  ({[ "web" := VBool true ]} : gmap string pyval) !! "ratio" = None.
Proof. split; reflexivity. Qed.

(** A parameter without default:
    [def rename(name, force=False, web=False)] resolves to the descriptor
    [(name, False), (force, False)], and the mapping has the keys [name]
    and [force]; the declared [web] has none. *)
Example rename_keys :
  _get_arguments crowded_catalog "system" (Some "rename")
  = Returns ([("name", VBool false); ("force", VBool false)], rename) ∧
  build_kwargs sample_runtime no_request (Some "rename") "20240101-000000"
    [("name", VBool false); ("force", VBool false)] ∅
  = Returns {[ "name" := VBool false; "force" := VBool false ]} ∧
  ({[ "name" := VBool false; "force" := VBool false ]} : gmap string pyval) !! "web" = None.
Proof. split; [reflexivity|]. split; reflexivity. Qed.

(** The skipped parameter [appliances] of [reboot] holds the submitted
    list. *)
Lemma skipped_present_witness :
  ∃ v,
    ({[ "appliances" := VList [VStr "dp1"];
        "credentials" := VList [VStr "admin:s3cret"];
        "delay" := VInt 7;
        "web" := VBool true ]} : gmap string pyval) !! "appliances" = Some v ∧
    skipped_value sample_runtime reboot_request (Some "reboot") "20240101-000000"
      "appliances" (VList []) v.
Proof.
  refine (skipped_present sample_runtime reboot_request (Some "reboot") "20240101-000000"
            [("appliances", VList []); ("credentials", VList []); ("delay", VInt 5);
             ("web", VBool false)] _ "appliances" (VList []) _ _ _ _).
  - reflexivity.
  - compute_done.
  - apply list_elem_of_here.
  - vm_compute. reflexivity.
Defined.

(** C5 as stated: the skipped flag [web] defaults to false and is coerced
    to true, so its entry is not the descriptor default. *)
Lemma skipped_default_counterexample :
  skipped "web" (VBool false) = true ∧
  build_kwargs sample_runtime no_request (Some "reboot") "20240101-000000"
    [("web", VBool false)] ∅ = Returns {[ "web" := VBool true ]} ∧
  ({[ "web" := VBool true ]} : gmap string pyval) !! "web" ≠ Some (VBool false).
Proof. split; [reflexivity|]. split; [reflexivity|]. vm_compute. discriminate. Qed.

(** ** The Command Catalog on the sample plugin *)

Lemma unknown_command_raises_witness :
  raised (_get_arguments sample_catalog "system" (Some "restart")) = Some UnboundLocalError.
Proof.
  apply (unknown_command_raises (Some "restart") sample_catalog "system"
           [("appliance", [reboot; ping]); ("monitoring", [status])]).
  - reflexivity.
  - repeat constructor.
Defined.

(** C8 as stated: the error for a name the plugin does not have is
    [UnboundLocalError], not a not-found error. *)
Lemma unknown_command_counterexample :
  raised (_get_arguments sample_catalog "system" (Some "restart")) ≠ Some NotFound.
Proof. vm_compute. discriminate. Qed.

(** ** The Invoker on concrete arguments *)

Lemma exception_reported_witness :
  _call_method sample_runtime "20240101-000001" 12345 fails
    {[ "appliances" := VList [VStr "dp1"]; "web" := VBool true ]} empty_world
  = (Returns (Some (unhandled_message (Exn ValueError "boom"), "20240101-000001-12345.log")),
     World {[ "var/www/static/tmp/request_history/20240101-000001/20240101-000001-12345.log"
                := "Traceback (most recent call last): boom" ]}
           ["Traceback (most recent call last): boom"]).
Proof.
  refine (proj1 (exception_reported sample_runtime "20240101-000001" 12345 fails
                   {[ "appliances" := VList [VStr "dp1"]; "web" := VBool true ]} empty_world
                   empty_world (Exn ValueError "boom") _ _ _ _)).
  - exists (VBool true). reflexivity.
  - reflexivity.
  - reflexivity.
  - reflexivity.
Defined.

(** C1 as stated: a command that leaves through [sys.exit] raises
    [SystemExit], which the handler does not catch; the Invoker propagates
    it and returns nothing. *)
Lemma system_exit_counterexample :
  ({[ "web" := VBool true ]} : gmap string pyval) !! "web" = Some (VBool true) ∧
  exits {[ "web" := VBool true ]} empty_world = (Raises (Exn SystemExit "1"), empty_world) ∧
  _call_method sample_runtime "20240101-000001" 12345 exits {[ "web" := VBool true ]} empty_world
  = (Raises (Exn SystemExit "1"), empty_world).
Proof. split; [reflexivity|]. split; reflexivity. Qed.

(** No appliance submitted at all: [form.getlist] gives the empty list
    and the Invoker raises. *)
Lemma empty_appliances_raises_witness :
  _call_method sample_runtime "20240101-000001" 12345 answers
    {[ "appliances" := VList []; "web" := VBool true ]} empty_world
  = (Raises (Exn IndexError "list index out of range"), empty_world).
Proof.
  apply (empty_appliances_raises sample_runtime "20240101-000001" 12345 answers
           {[ "appliances" := VList []; "web" := VBool true ]} empty_world).
  reflexivity.
Defined.

(** The guard as it works: an empty string in first place. *)
Example empty_string_appliance :
  _call_method sample_runtime "20240101-000001" 12345 fails
    {[ "appliances" := VList [VStr ""]; "web" := VBool true ]} empty_world
  = (Returns (Some ("Must select at least one appliance.", "20240101-000001-12345.log")),
     World {[ "var/www/static/tmp/request_history/20240101-000001/20240101-000001-12345.log"
                := "Must select at least one appliance." ]} []).
Proof. reflexivity. Qed.

(** ** The submission path on the sample plugin *)



(** * Further properties *)

(** ** Resolving a command *)

Section Resolution.

Context (fn_name : option string).

Local Open Scope list_scope.

Local Abbreviation hit := (fun it => name_matches it fn_name = true).

(** A list of commands either has none with the name, or a first one. *)
Lemma first_hit_or_absent (items : list command) :
  absent_from fn_name items ∨
  ∃ before it after,
    items = before ++ it :: after ∧ absent_from fn_name before ∧ hit it.
Proof.
  induction items as [|x items IH]; [left; constructor|].
  destruct (name_matches x fn_name) eqn:Hx.
  - right. exists [], x, items. repeat split; [constructor | exact Hx].
  - destruct IH as [Habs | (before & it & after & -> & Hb & Hit)].
    + left. now constructor.
    + right. exists (x :: before), it, after. repeat split; [now constructor | exact Hit].
Qed.

Lemma first_hit_unique (b1 b2 : list command) x1 x2 a1 a2 :
  b1 ++ x1 :: a1 = b2 ++ x2 :: a2 →
  absent_from fn_name b1 → absent_from fn_name b2 → hit x1 → hit x2 →
  b1 = b2 ∧ x1 = x2 ∧ a1 = a2.
Proof.
  revert b2. induction b1 as [|y b1 IH]; intros [|z b2] Heq H1 H2 Hx1 Hx2;
    cbn in Heq; injection Heq as -> Heq.
  - auto.
  - apply Forall_cons in H2 as [Hz _]. congruence.
  - apply Forall_cons in H1 as [Hy _]. congruence.
  - apply Forall_cons in H1 as [_ H1]. apply Forall_cons in H2 as [_ H2].
    destruct (IH b2 Heq H1 H2 Hx1 Hx2) as (-> & -> & ->). auto.
Qed.

Lemma absent_prefix (items rest before : list command) it after :
  items ++ rest = before ++ it :: after →
  absent_from fn_name items → hit it →
  ∃ before', before = items ++ before' ∧ rest = before' ++ it :: after.
Proof.
  revert before. induction items as [|y items IH]; intros before Heq Habs Hit.
  - exists before. auto.
  - apply Forall_cons in Habs as [Hy Habs]. destruct before as [|z before]; cbn in Heq;
      injection Heq as -> Heq.
    + congruence.
    + destruct (IH before Heq Habs Hit) as (before' & -> & ->).
      exists before'. auto.
Qed.

Lemma scan_items_hit before it after st :
  absent_from fn_name before → hit it →
  scan_items fn_name (before ++ it :: after) st
  = Locals true (Some (args it, defaults it)) (Some it).
Proof.
  revert st. induction before as [|b before IH]; intros st Habs Hit.
  - cbn. now rewrite Hit.
  - apply Forall_cons in Habs as [Hb Habs]. cbn. rewrite Hb. now apply IH.
Qed.

Lemma scan_categories_found (cl : command_list) st :
  found st = true → scan_categories fn_name cl st = st.
Proof. intros Hst. destruct cl as [|[c items] cl]; [reflexivity|]. cbn. now rewrite Hst. Qed.

(** The two loops walk the commands of all categories in order and stop
    at the first one with the name. *)
Lemma scan_categories_first (cl : command_list) : ∀ st before it after,
  found st = false →
  List.concat cl.*2 = before ++ it :: after →
  absent_from fn_name before → hit it →
  scan_categories fn_name cl st = Locals true (Some (args it, defaults it)) (Some it).
Proof.
  induction cl as [|[category items] cl IH]; intros st before it after Hst Hcat Hbefore Hit.
  - destruct before; discriminate.
  - cbn [scan_categories]. rewrite Hst. cbn in Hcat.
    destruct (first_hit_or_absent items) as [Habs | (b1 & x1 & a1 & -> & Hb1 & Hx1)].
    + destruct (absent_prefix _ _ _ _ _ Hcat Habs Hit) as (before' & -> & Hrest).
      apply Forall_app in Hbefore as [_ Hbefore'].
      apply (IH _ before' it after); auto.
      rewrite <- Hst. now apply scan_items_absent.
    + rewrite <- (assoc_L (++)) in Hcat. cbn in Hcat.
      destruct (first_hit_unique _ _ _ _ _ _ Hcat Hb1 Hbefore Hx1 Hit) as (-> & -> & _).
      rewrite (scan_items_hit _ _ _ _ Hbefore Hit). now apply scan_categories_found.
Qed.

End Resolution.

Lemma zip_names {A B} (l : list A) : ∀ k : list B, (zip l k).*1 = take (List.length k) l.
Proof.
  induction l as [|a l IH]; intros [|b k]; cbn; try reflexivity.
  now rewrite IH.
Qed.

Lemma zip_values {A B} (l : list A) : ∀ k : list B, (zip l k).*2 = take (List.length l) k.
Proof.
  induction l as [|a l IH]; intros [|b k]; cbn; try reflexivity.
  now rewrite IH.
Qed.

(** X1.  A name the plugin knows resolves to the first command carrying it,
    in the order of the categories and, within a category, of the
    commands; the descriptor pairs its parameter names with its defaults
    position by position. *)
Theorem first_command_resolved (cat : catalog) (plugin : string) (module : command_list)
    (fn_name : option string) before it after (ds : list pyval) :
  cat !! plugin = Some module →
  List.concat module.*2 = (before ++ it :: after)%list →
  absent_from fn_name before →
  name_matches it fn_name = true →
  defaults it = Some ds →
  _get_arguments cat plugin fn_name = Returns (zip (args it) ds, it).
Proof.
  intros Hplugin Hcat Hbefore Hit Hds. unfold _get_arguments, get_module.
  rewrite Hplugin. unfold_bind.
  rewrite (scan_categories_first _ _ (Locals false None None) _ _ _ eq_refl Hcat Hbefore Hit).
  cbn. now rewrite Hds.
Qed.

(** X2.  A command that declares no default at all cannot be resolved:
    [inspect] reports its defaults as [None] and [zip] raises
    [TypeError], although the command was found. *)
Theorem command_without_defaults_raises (cat : catalog) (plugin : string)
    (module : command_list) (fn_name : option string) before it after :
  cat !! plugin = Some module →
  List.concat module.*2 = (before ++ it :: after)%list →
  absent_from fn_name before →
  name_matches it fn_name = true →
  defaults it = None →
  raised (_get_arguments cat plugin fn_name) = Some TypeError.
Proof.
  intros Hplugin Hcat Hbefore Hit Hds. unfold _get_arguments, get_module.
  rewrite Hplugin. unfold_bind.
  rewrite (scan_categories_first _ _ (Locals false None None) _ _ _ eq_refl Hcat Hbefore Hit).
  cbn. now rewrite Hds.
Qed.

(** X3.  Whatever [_get_arguments] returns is a command of the plugin
    with the name asked for, and the descriptor names are the first
    parameters of that command, as many as it has defaults: a parameter
    without default shifts every default to the wrong name and pushes the
    last parameters out of the descriptor. *)
Theorem resolved_descriptor (cat : catalog) (plugin : string) (fn_name : option string)
    (arguments : list (string * pyval)) (it : command) :
  _get_arguments cat plugin fn_name = Returns (arguments, it) →
  ∃ module ds,
    cat !! plugin = Some module ∧
    it ∈ List.concat module.*2 ∧
    fn_name = Some (__name__ it) ∧
    defaults it = Some ds ∧
    arguments.*1 = take (List.length ds) (args it) ∧
    arguments.*2 = take (List.length (args it)) ds.
Proof.
  unfold _get_arguments, get_module. destruct (cat !! plugin) as [module|] eqn:Hplugin;
    [|discriminate].
  unfold_bind.
  destruct (first_hit_or_absent fn_name (List.concat module.*2))
    as [Habs | (before & x & after & Hcat & Hbefore & Hx)].
  - assert (Forall (λ c, absent_from fn_name c.2) module) as Hall.
    { clear -Habs. induction module as [|[c items] module IH]; [constructor|].
      cbn in Habs. apply Forall_app in Habs as [? ?]. constructor; auto. }
    rewrite (scan_categories_absent _ _ _ Hall). discriminate.
  - rewrite (scan_categories_first _ _ (Locals false None None) _ _ _ eq_refl Hcat Hbefore Hx). cbn.
    destruct (defaults x) as [ds|] eqn:Hds; [|discriminate].
    cbn. intros [= <- <-]. exists module, ds. repeat split; auto.
    + rewrite Hcat. apply elem_of_app. right. apply list_elem_of_here.
    + unfold name_matches in Hx. destruct fn_name as [n|]; [|discriminate].
      apply String.eqb_eq in Hx. now subst.
    + apply zip_names.
    + apply zip_values.
Qed.

(** ** The form and the submission *)

Lemma control_lists_permutation (cs : list (string * control)) :
  let only l := filter (fun kc : string * control => list_of kc.2 = l) cs in
  (only Textboxes ++ only Selects ++ only FileUploads ++ only Checkboxes)%list ≡ₚ cs.
Proof.
  intros only. subst only. cbn beta.
  induction cs as [|[k c] cs IH]; [reflexivity|].
  rewrite !filter_cons. cbn [snd].
  destruct (list_of c) eqn:Hc; repeat case_decide; try congruence;
    rewrite <- ?app_comm_cons.
  - now rewrite IH.
  - rewrite <- Permutation_middle. now rewrite IH.
  - rewrite (assoc_L (++) _ _ (_ :: _)), <- Permutation_middle, <- (assoc_L (++)).
    now rewrite IH.
  - rewrite 2!(assoc_L (++) _ _ (_ :: _)), <- Permutation_middle, <- !(assoc_L (++)).
    now rewrite IH.
Qed.

(** X4.  The form [get_form] builds holds one control for every parameter
    of the descriptor that is neither skipped nor of an unknown default
    type, and nothing else: its controls are those of the parameters,
    rearranged list by list; the label is the command name with
    underscores turned into spaces. *)
Theorem form_controls (cat : catalog) (table : list string) (plugin : string)
    (fn_name : option string) (label : string) (fields : list (string * control)) :
  get_form cat table plugin fn_name = Returns (label, fields) →
  ∃ n arguments fn,
    fn_name = Some n ∧
    label = Py.replace "_" " " n ∧
    _get_arguments cat plugin fn_name = Returns (arguments, fn) ∧
    fields ≡ₚ controls table arguments.
Proof.
  unfold get_form. destruct fn_name as [n|]; [|discriminate].
  destruct (_get_arguments cat plugin (Some n)) as [[arguments fn]|e]; [|discriminate].
  unfold_bind. intros [= <- <-]. exists n, arguments, fn. repeat split.
  apply control_lists_permutation.
Qed.

Lemma control_supported (table : list string) (key : string) (d : pyval) (c : control) :
  get_form_control table key d = Some c → supported d = true.
Proof. now destruct d. Qed.

Lemma skipped_supported (key : string) (d : pyval) :
  skipped key d = true → supported d = true.
Proof. now destruct d. Qed.

(** X5.  Form and coercion agree on the parameters: whenever the loop of
    [call_method] completes, the keys of the coerced mapping are exactly
    the names of the parameters [get_form] renders a control for,
    together with the names of the skipped ones. *)
Theorem keys_are_controls_and_skipped (rt : runtime) (req : request) (name : option string)
    (timestamp : string) (table : list string) (arguments : list (string * pyval))
    (kw : gmap string pyval) :
  build_kwargs rt req name timestamp arguments ∅ = Returns kw →
  dom kw =
    list_to_set (controls table arguments).*1 ∪
    list_to_set (filter (fun p : string * pyval => skipped p.1 p.2) arguments).*1.
Proof.
  intros Hkw. rewrite (build_kwargs_dom _ _ _ _ _ _ _ Hkw), dom_empty_L, (left_id_L ∅ (∪)).
  apply set_eq. intros x.
  rewrite elem_of_union, !elem_of_list_to_set, !list_elem_of_fmap. split.
  - intros ([arg d] & -> & Hin). apply list_elem_of_filter in Hin as [Hsup Hin].
    cbn in Hsup. apply Is_true_true in Hsup.
    destruct (get_form_control table arg d) as [c|] eqn:Hc.
    + left. exists (arg, c). split; [reflexivity|].
      apply list_elem_of_omap. exists (arg, d). split; [exact Hin|]. cbn. now rewrite Hc.
    + right. exists (arg, d). split; [reflexivity|].
      apply list_elem_of_filter. split; [|exact Hin].
      cbn. apply Is_true_true. now apply (skipped_no_control table).
  - intros [([k c] & -> & Hin) | ([arg d] & -> & Hin)].
    + apply list_elem_of_omap in Hin as ([arg d] & Hin & Hc). cbn in Hc.
      destruct (get_form_control table arg d) as [c'|] eqn:Hc'; [|discriminate].
      cbn in Hc. injection Hc as <- <-.
      exists (arg, d). split; [reflexivity|].
      apply list_elem_of_filter. split; [|exact Hin].
      cbn. apply Is_true_true. exact (control_supported _ _ _ _ Hc').
    + apply list_elem_of_filter in Hin as [Hskip Hin]. cbn in Hskip.
      apply Is_true_true in Hskip.
      exists (arg, d). split; [reflexivity|].
      apply list_elem_of_filter. split; [|exact Hin].
      cbn. apply Is_true_true. exact (skipped_supported _ _ Hskip).
Qed.

(** ** The Invoker and the submission path *)

(** X6.  Beyond what the command does, [_call_method] writes one file
    at most, the history log of the request: every other file is as the
    command left it, or as it was when the command is not called.  And
    unless a pair is returned nothing is written at all, no log and no
    line on the standard error stream. *)
Theorem invoker_frame (rt : runtime) (timestamp : string) (rand : Z)
    (func : behaviour (string * string)) (kwargs : gmap string pyval) (w : world) :
  (∀ p, p ≠ history_path timestamp rand →
        files (_call_method rt timestamp rand func kwargs w).2 !! p
        = files (after_command func kwargs w) !! p) ∧
  ((_call_method rt timestamp rand func kwargs w).2 = after_command func kwargs w ∨
   ∃ pair, (_call_method rt timestamp rand func kwargs w).1 = Returns (Some pair)).
Proof.
  unfold _call_method, after_command, calls_command, first_appliance, select_func.
  destruct (kwargs !! "appliances") as [a|]; cbn;
    [destruct (Py.getitem0 a) as [first|e]; cbn; [destruct (truthy first)|]|];
    destruct (kwargs !! "web") as [v|]; cbn;
    try destruct (func kwargs w) as [[[out hist]|e'] w1]; cbn;
    try destruct (is_Exception (exn_class e')); cbn;
    (split; [intros p Hp; try reflexivity; now apply lookup_insert_ne | eauto]).
Qed.

(** X7.  The resolved command has no part in the result when the
    arguments lack the key [web], or when the guard on [appliances] does
    not let it through: any two commands give the same result and the
    same world. *)
Theorem command_not_consulted (rt : runtime) (timestamp : string) (rand : Z)
    (f g : behaviour (string * string)) (kwargs : gmap string pyval)
    (w : world) :
  kwargs !! "web" = None ∨ calls_command kwargs = false →
  _call_method rt timestamp rand f kwargs w = _call_method rt timestamp rand g kwargs w.
Proof.
  unfold _call_method, calls_command, first_appliance, select_func.
  destruct (kwargs !! "appliances") as [a|]; cbn.
  - destruct (Py.getitem0 a) as [first|e]; cbn; [|reflexivity].
    intros [Hweb | Hfirst].
    + destruct (truthy first); now rewrite Hweb.
    + now rewrite Hfirst.
  - intros [Hweb | ?]; [|discriminate]. now rewrite Hweb.
Qed.

Lemma length_append (a b : string) :
  String.length (a ++ b) = (String.length a + String.length b)%nat.
Proof.
  induction a as [|x a IH]; [reflexivity|].
  change (S (String.length (a ++ b)) = S (String.length a + String.length b)). now rewrite IH.
Qed.

Lemma append_cancel_r (a b c : string) : a ++ c = b ++ c → a = b.
Proof.
  revert b. induction a as [|x a IH]; intros [|y b] H.
  - reflexivity.
  - exfalso. apply (f_equal String.length) in H.
    rewrite !length_append in H. cbn in H. lia.
  - exfalso. apply (f_equal String.length) in H.
    rewrite !length_append in H. cbn in H. lia.
  - change (String x (a ++ c) = String y (b ++ c)) in H. injection H as -> H.
    now rewrite (IH b H).
Qed.

Lemma append_cancel_l (a b c : string) : a ++ b = a ++ c → b = c.
Proof.
  induction a as [|x a IH]; intros H; [exact H|].
  change (String x (a ++ b) = String x (a ++ c)) in H. injection H as H. auto.
Qed.

Lemma history_id_inj (timestamp : string) (r1 r2 : Z) :
  history_id timestamp r1 = history_id timestamp r2 → r1 = r2.
Proof.
  unfold history_id. intros H.
  apply append_cancel_l, append_cancel_l in H.
  apply append_cancel_r in H. now apply (inj pretty).
Qed.

Lemma startswith_sep_history_id (timestamp : string) (r1 r2 : Z) :
  Py.startswith_sep (history_id timestamp r1) = Py.startswith_sep (history_id timestamp r2).
Proof. unfold history_id. now destruct timestamp. Qed.

(** X8.  Within one time stamp the random suffix tells the history logs
    apart: two requests write to the same path only if they drew the same
    number. *)
Theorem history_path_inj (timestamp : string) (r1 r2 : Z) :
  history_path timestamp r1 = history_path timestamp r2 → r1 = r2.
Proof.
  unfold history_path.
  change (Py.join_step (history_dir timestamp) (history_id timestamp r1)
          = Py.join_step (history_dir timestamp) (history_id timestamp r2) → r1 = r2).
  generalize (history_dir timestamp). intros dir. unfold Py.join_step.
  rewrite (startswith_sep_history_id timestamp r1 r2).
  destruct (Py.startswith_sep (history_id timestamp r2)).
  - apply history_id_inj.
  - destruct (_ || _).
    + intros H. now apply append_cancel_l, history_id_inj in H.
    + intros H. apply append_cancel_l in H. injection H as H. now apply history_id_inj in H.
Qed.

(** X9.  End to end, a submission that resolves, coerces and reaches a
    command that answers gives back the command's output unchanged with
    the history id, hands the command exactly the coerced mapping and
    leaves the command's history in the log, in the world [w1] the command
    left. *)
Theorem submission_succeeds (rt : runtime) (cat : catalog) (t t' : string) (rand : Z)
    (plugin : string) (req : request) (w w1 : world)
    (arguments : list (string * pyval)) (cmd : command) (kwargs : gmap string pyval)
    (out hist : string) :
  _get_arguments cat plugin (get (form req) "callable") = Returns (arguments, cmd) →
  build_kwargs rt req (get (form req) "callable") t arguments ∅ = Returns kwargs →
  is_Some (kwargs !! "web") →
  calls_command kwargs = true →
  call cmd kwargs w = (Returns (out, hist), w1) →
  call_method rt cat t t' rand plugin req w
  = (Returns (out, history_id t' rand, kwargs), logged t' rand hist w1).
Proof.
  intros Hget Hkw [v Hweb] Hcalls Hcall. unfold call_method. rewrite Hget, Hkw.
  unfold _call_method. now rewrite (select_func_calls _ _ Hcalls), Hweb, Hcall.
Qed.

(** X10.  The submission path does not raise when the descriptor of the
    resolved command pairs [web] with a boolean default, on a well-formed
    submission with at least one appliance, as long as the command itself
    raises nothing outside [Exception]: [call_method] gets its pair.  The
    condition is on the descriptor: a command that declares [web] after
    a parameter without default loses it there. *)
Theorem submission_returns (rt : runtime) (cat : catalog) (t t' : string) (rand : Z)
    (plugin : string) (req : request) (w : world)
    (arguments : list (string * pyval)) (cmd : command) (b : bool) :
  _get_arguments cat plugin (get (form req) "callable") = Returns (arguments, cmd) →
  NoDup arguments.*1 →
  ("web", VBool b) ∈ arguments →
  Forall (λ p, well_formed_for rt req (get (form req) "callable") p.1 p.2) arguments →
  (∀ d, ("appliances", d) ∈ arguments →
        ∃ l, d = VList l ∧ getlist (form req) "appliances[]" ≠ []) →
  (∀ kw w0 e w1, call cmd kw w0 = (Raises e, w1) → is_Exception (exn_class e) = true) →
  ∃ out kwargs w',
    call_method rt cat t t' rand plugin req w
    = (Returns (out, history_id t' rand, kwargs), w').
Proof.
  intros Hget Hnd Hweb Hwf Happ Hexc.
  destruct (build_kwargs_returns rt req (get (form req) "callable") t arguments ∅)
    as [kw Hkw].
  { eapply Forall_impl; [exact Hwf|]. intros [arg d]. apply coerce_returns. }
  assert (kw !! "web" = Some (VBool true)) as Hkweb.
  { destruct (build_kwargs_lookup _ _ _ _ _ _ _ _ _ Hkw Hnd Hweb) as (v & Hv & ->).
    cbn in Hv. now injection Hv as <-. }
  assert (guard_evaluates kw = true) as Hguard.
  { unfold guard_evaluates, first_appliance.
    destruct (kw !! "appliances") as [a|] eqn:Ha; [|reflexivity].
    assert ("appliances" ∈ dom kw) as Hdom by (apply elem_of_dom; eauto).
    rewrite (build_kwargs_dom _ _ _ _ _ _ _ Hkw), dom_empty_L, (left_id_L ∅ (∪)) in Hdom.
    apply elem_of_list_to_set, list_elem_of_fmap in Hdom as ([arg d] & Harg & Hin).
    cbn in Harg. subst arg. apply list_elem_of_filter in Hin as [_ Hin].
    destruct (Happ d Hin) as (l & -> & Hne).
    destruct (build_kwargs_lookup _ _ _ _ _ _ _ _ _ Hkw Hnd Hin) as (v & Hv & Hlook).
    cbn in Hv. injection Hv as <-. rewrite Ha in Hlook. injection Hlook as ->.
    change ("appliances" ++ "[]") with "appliances[]".
    destruct (getlist (form req) "appliances[]"); [congruence|reflexivity]. }
  destruct (select_func_evaluates (call cmd) kw Hguard) as [f Hf].
  destruct (web_returns_pair rt t' rand (call cmd) kw w f) as (out & w' & Hinv).
  { rewrite Hkweb. eauto. }
  { exact Hf. }
  { destruct (select_func_cases _ _ _ Hf) as [-> | ->]; [apply Hexc|].
    intros e w1. discriminate. }
  exists out, kw, w'. unfold call_method. rewrite Hget, Hkw, Hinv. reflexivity.
Qed.

(** ** Escaping and formatting for the log *)

Lemma occurs_append (c : ascii) (a b : string) :
  occurs c (a ++ b) = occurs c a || occurs c b.
Proof.
  induction a as [|x a IH]; [reflexivity|].
  change (occurs c (String x (a ++ b)) = occurs c (String x a) || occurs c b).
  cbn [occurs]. now rewrite IH, orb_assoc.
Qed.

(** Replacing a character removes it, and brings in nothing but the
    replacement text. *)
Lemma occurs_replace (c old : ascii) (new s : string) :
  occurs c new = false →
  c = old ∨ occurs c s = false →
  occurs c (Py.replace old new s) = false.
Proof.
  intros Hnew. induction s as [|d s IH]; intros Hc; [reflexivity|].
  cbn [Py.replace]. rewrite occurs_append.
  assert (c = old ∨ occurs c s = false) as Hs.
  { destruct Hc as [->|Hc]; [now left|]. cbn in Hc. apply orb_false_elim in Hc as [_ ?]. now right. }
  rewrite (IH Hs), orb_false_r.
  destruct (Ascii.eqb_spec d old) as [->|Hd]; [exact Hnew|].
  cbn. rewrite orb_false_r. apply Ascii.eqb_neq. intros ->.
  destruct Hc as [->|Hc]; [congruence|]. cbn in Hc. now rewrite Ascii.eqb_refl in Hc.
Qed.

Lemma replace_absent (old : ascii) (new s : string) :
  occurs old s = false → Py.replace old new s = s.
Proof.
  induction s as [|d s IH]; intros H; [reflexivity|].
  cbn in H. apply orb_false_elim in H as [Hd Hs].
  cbn [Py.replace]. rewrite Hd, (IH Hs). reflexivity.
Qed.

(** The four characters [_escape] deals with are gone from its result. *)
Lemma escape_free (s : string) :
  occurs "010" (_escape s) = false ∧
  occurs "013" (_escape s) = false ∧
  occurs "'" (_escape s) = false ∧
  occurs "034" (_escape s) = false.
Proof.
  unfold _escape. repeat split.
  - do 3 (apply occurs_replace; [reflexivity | right]).
    apply occurs_replace; [reflexivity | now left].
  - do 2 (apply occurs_replace; [reflexivity | right]).
    apply occurs_replace; [reflexivity | now left].
  - apply occurs_replace; [reflexivity | right].
    apply occurs_replace; [reflexivity | now left].
  - apply occurs_replace; [reflexivity | now left].
Qed.

(** X11.  What [_escape] returns holds no newline, no carriage return, no
    single and no double quote, whatever it is given. *)
Theorem escape_clean (s : string) :
  occurs "010" (_escape s) = false ∧
  occurs "013" (_escape s) = false ∧
  occurs "'" (_escape s) = false ∧
  occurs "034" (_escape s) = false.
Proof. apply escape_free. Qed.

(** X12.  Escaping twice is escaping once: the entities [_escape] writes
    are not escaped again. *)
Theorem escape_idempotent (s : string) : _escape (_escape s) = _escape s.
Proof.
  destruct (escape_free s) as (Hn & Hr & Hq & Hd).
  unfold _escape at 1.
  now rewrite (replace_absent _ _ _ Hn), (replace_absent _ _ _ Hr),
    (replace_absent _ _ _ Hq), (replace_absent _ _ _ Hd).
Qed.

Lemma occurs_replace_go (c : ascii) (old new s : string) : ∀ skip,
  occurs c new = false →
  occurs c (PyText.replace_go old new s skip) = true →
  occurs c s = true.
Proof.
  induction s as [|d s IH]; intros skip Hnew H; [discriminate|].
  cbn [PyText.replace_go] in H. cbn [occurs]. destruct skip as [|k].
  - destruct (String.prefix old (String d s)).
    + rewrite occurs_append, Hnew in H. cbn in H. rewrite (IH _ Hnew H). apply orb_true_r.
    + cbn in H. apply orb_true_iff in H as [-> | H]; [reflexivity|].
      rewrite (IH _ Hnew H). apply orb_true_r.
  - rewrite (IH _ Hnew H). apply orb_true_r.
Qed.

Lemma prefix_empty (s : string) : String.prefix "" s = true.
Proof. now destruct s. Qed.

Lemma remove_char (c : ascii) (s : string) :
  occurs c (PyText.str_replace (String c "") "" s) = false.
Proof.
  cbn [PyText.str_replace]. induction s as [|d s IH]; [reflexivity|].
  cbn [PyText.replace_go String.prefix]. rewrite prefix_empty.
  destruct (ascii_dec c d) as [->|Hne].
  - exact IH.
  - cbn. rewrite IH, orb_false_r. apply Ascii.eqb_neq. congruence.
Qed.

(** X13.  The keyword arguments formatted for the log hold no brace:
    [_format_kwargs] strips the braces of the dictionary and with them
    every brace inside a key or a value. *)
Theorem format_kwargs_no_braces (repr : gmap string pyval → string) (kwargs : gmap string pyval) :
  occurs "{" (_format_kwargs repr kwargs) = false ∧
  occurs "}" (_format_kwargs repr kwargs) = false.
Proof.
  unfold _format_kwargs. split.
  - destruct (occurs "{" _) eqn:H; [|reflexivity].
    apply occurs_replace_go in H; [|reflexivity].
    apply occurs_replace_go in H; [|reflexivity].
    now rewrite remove_char in H.
  - destruct (occurs "}" _) eqn:H; [|reflexivity].
    apply occurs_replace_go in H; [|reflexivity].
    now rewrite remove_char in H.
Qed.

(** ** Wrapping a certificate body *)

Module WrapFacts.

Local Open Scope nat_scope.

Lemma append_nil_r (s : string) : s ++ "" = s.
Proof.
  induction s as [|c s IH]; [reflexivity|].
  change (String c (s ++ "") = String c s). now rewrite IH.
Qed.

Lemma substring_empty (a m : nat) : substring a m "" = "".
Proof. now destruct a, m. Qed.

Lemma substring_shift (a b m : nat) : ∀ s,
  substring (a + b) m s = substring b m (string_drop a s).
Proof.
  induction a as [|a IH]; intros s; [reflexivity|].
  destruct s as [|c s]; cbn [string_drop Nat.add].
  - now rewrite !substring_empty.
  - cbn [substring]. apply IH.
Qed.

Lemma substring_drop (e : nat) : ∀ s, substring 0 e s ++ string_drop e s = s.
Proof.
  induction e as [|e IH]; intros [|c s]; try reflexivity.
  cbn [substring string_drop].
  change (String c (substring 0 e s ++ string_drop e s) = String c s). now rewrite IH.
Qed.

Lemma length_drop (e : nat) : ∀ s, String.length (string_drop e s) = String.length s - e.
Proof. induction e as [|e IH]; intros [|c s]; cbn; auto. Qed.

Lemma length_substring (a m : nat) : ∀ s,
  String.length (substring a m s) = Nat.min m (String.length s - a).
Proof.
  revert m. induction a as [|a IH]; intros m s.
  - revert s. induction m as [|m IHm]; intros [|c s]; cbn; auto.
    rewrite IHm. now rewrite Nat.sub_0_r.
  - destruct s as [|c s]; cbn [substring String.length]; [now rewrite Nat.min_0_r|].
    rewrite IH. reflexivity.
Qed.

Lemma occurs_substring (c : ascii) (a m : nat) : ∀ s,
  occurs c s = false → occurs c (substring a m s) = false.
Proof.
  revert m. induction a as [|a IH]; intros m s.
  - revert s. induction m as [|m IHm]; intros [|d s] H; cbn; auto.
    cbn in H. apply orb_false_elim in H as [-> H]. cbn. auto.
  - destruct s as [|d s]; intros H; cbn; auto.
    cbn in H. apply orb_false_elim in H as [_ H]. auto.
Qed.

Lemma slices_succ (e : nat) (s : string) (m : nat) :
  slices e s (S m) = substring 0 e s :: slices e (string_drop e s) m.
Proof.
  unfold slices. cbn [seq map]. f_equal.
  rewrite <- seq_shift, map_map. apply map_ext. intros k.
  change (S k * e) with (e + k * e). apply substring_shift.
Qed.

Lemma join_empty_cons (x : string) (l : list string) :
  PyText.str_join "" (x :: l) = x ++ PyText.str_join "" l.
Proof. destruct l; cbn [PyText.str_join]; [now rewrite append_nil_r | reflexivity]. Qed.

(** Laid end to end, the slices are the string. *)
Lemma slices_concat (e : nat) : ∀ m s,
  String.length s ≤ m * e → PyText.str_join "" (slices e s m) = s.
Proof.
  induction m as [|m IH]; intros s Hlen.
  - destruct s; [reflexivity | cbn in Hlen; lia].
  - rewrite slices_succ, join_empty_cons, IH; [apply substring_drop|].
    rewrite length_drop. lia.
Qed.

Lemma replace_append (old : ascii) (new a b : string) :
  Py.replace old new (a ++ b) = Py.replace old new a ++ Py.replace old new b.
Proof.
  induction a as [|c a IH]; [reflexivity|].
  change (Py.replace old new (String c (a ++ b))
          = Py.replace old new (String c a) ++ Py.replace old new b).
  cbn [Py.replace]. rewrite IH. symmetry. apply PyFacts.append_assoc.
Qed.

(** Taking the newlines out of the joined pieces lays them end to end. *)
Lemma unwrap_join (pieces : list string) :
  Forall (fun p => occurs "010" p = false) pieces →
  Py.replace "010" "" (PyText.str_join PyText.newline pieces) = PyText.str_join "" pieces.
Proof.
  induction pieces as [|p pieces IH]; intros Hall; [reflexivity|].
  apply Forall_cons in Hall as [Hp Hall].
  destruct pieces as [|q pieces].
  - cbn. now apply replace_absent.
  - change (PyText.str_join PyText.newline (p :: q :: pieces))
      with (p ++ PyText.newline ++ PyText.str_join PyText.newline (q :: pieces)).
    rewrite !replace_append, (replace_absent _ _ _ Hp), (IH Hall).
    change (PyText.str_join "" (p :: q :: pieces))
      with (p ++ "" ++ PyText.str_join "" (q :: pieces)).
    reflexivity.
Qed.

Lemma split_absent (c : ascii) (s : string) :
  occurs c s = false → PyText.str_split c s = [s].
Proof.
  induction s as [|d s IH]; intros H; [reflexivity|].
  cbn in H. apply orb_false_elim in H as [Hd Hs].
  cbn [PyText.str_split]. now rewrite Hd, (IH Hs).
Qed.

Lemma split_append (c : ascii) (a b : string) :
  occurs c a = false →
  PyText.str_split c (a ++ String c b) = a :: PyText.str_split c b.
Proof.
  induction a as [|d a IH]; intros H.
  - change ("" ++ String c b) with (String c b). cbn [PyText.str_split].
    now rewrite Ascii.eqb_refl.
  - cbn in H. apply orb_false_elim in H as [Hd Hs].
    change (PyText.str_split c (String d (a ++ String c b)) = String d a :: PyText.str_split c b).
    cbn [PyText.str_split]. now rewrite Hd, (IH Hs).
Qed.

(** Splitting at a character the pieces are free of undoes joining with
    it. *)
Lemma split_join_any (c : ascii) (pieces : list string) :
  pieces ≠ [] →
  Forall (fun p => occurs c p = false) pieces →
  PyText.str_split c (PyText.str_join (String c "") pieces) = pieces.
Proof.
  induction pieces as [|p pieces IH]; intros Hne Hall; [congruence|].
  apply Forall_cons in Hall as [Hp Hall].
  destruct pieces as [|q pieces].
  - cbn [PyText.str_join]. now apply split_absent.
  - change (PyText.str_join (String c "") (p :: q :: pieces))
      with (p ++ String c (PyText.str_join (String c "") (q :: pieces))).
    rewrite (split_append _ _ _ Hp), IH; auto.
Qed.

Lemma split_join (pieces : list string) :
  pieces ≠ [] →
  Forall (fun p => occurs "010" p = false) pieces →
  PyText.str_split "010" (PyText.str_join PyText.newline pieces) = pieces.
Proof. apply split_join_any. Qed.

Lemma count_covers (len : nat) (every : Z) :
  (0 < every)%Z →
  len ≤ slice_count len every * Z.to_nat every ∧
  (slice_count len every - 1) * Z.to_nat every < len + (if decide (len = 0) then 1 else 0) ∧
  (len = 0 → slice_count len every = 0).
Proof.
  intros He. unfold slice_count. destruct (Z.ltb_spec 0 (Z.of_nat len)) as [Hpos|Hzero].
  - assert (0 <= (Z.of_nat len - 0 - 1) / every)%Z as Hq by (apply Z.div_pos; lia).
    pose proof (Z.mul_div_le (Z.of_nat len - 0 - 1) every He) as Hle.
    pose proof (Z.mul_succ_div_gt (Z.of_nat len - 0 - 1) every He) as Hgt.
    set (q := ((Z.of_nat len - 0 - 1) / every)%Z) in *.
    rewrite Z2Nat.inj_add by lia. change (Z.to_nat 1) with 1.
    replace (Z.to_nat q + 1 - 1) with (Z.to_nat q) by lia.
    case_decide; [lia|]. repeat split; [| |lia].
    + apply Nat2Z.inj_le. rewrite Nat2Z.inj_mul, Nat2Z.inj_add, !Z2Nat.id by lia. nia.
    + apply Nat2Z.inj_lt. rewrite Nat2Z.inj_add, Nat2Z.inj_mul, !Z2Nat.id by lia. nia.
  - assert (len = 0) as -> by lia. case_decide; [|congruence]. cbn. repeat split; lia.

Qed.

(** For a positive width the result is the slices joined by newlines. *)
Lemma insert_newlines_slices (s : string) (every : Z) :
  (0 < every)%Z →
  insert_newlines s every =
    Returns (PyText.str_join PyText.newline
               (slices (Z.to_nat every) s (slice_count (String.length s) every))).
Proof.
  intros He. unfold insert_newlines, PyText.range.
  destruct (Z.eqb_spec every 0) as [->|_]; [lia|].
  destruct (Z.ltb_spec 0 every) as [_|?]; [|lia].
  unfold_bind. do 2 f_equal. unfold slices, slice_count. rewrite map_map.
  apply map_ext. intros k. unfold Py.slice.
  replace (0 + Z.of_nat k * every + every - (0 + Z.of_nat k * every))%Z with every by lia.
  f_equal. rewrite Z.add_0_l, Z2Nat.inj_mul, Nat2Z.id by lia. reflexivity.
Qed.

Lemma slices_clean (e : nat) (s : string) (m : nat) :
  occurs "010" s = false → Forall (fun p => occurs "010" p = false) (slices e s m).
Proof.
  intros Hs. unfold slices. apply Forall_forall. intros p Hp.
  apply list_elem_of_fmap in Hp as (k & -> & _). now apply occurs_substring.
Qed.

End WrapFacts.

(** X14.  For a positive width, wrapping loses nothing: taking the
    newlines out of what [insert_newlines] returns gives back the text,
    provided the text had none. *)
Theorem insert_newlines_unwrap (s : string) (every : Z) :
  0 < every →
  occurs "010" s = false →
  ∃ out, insert_newlines s every = Returns out ∧ Py.replace "010" "" out = s.
Proof.
  intros He Hs. eexists. split; [now apply WrapFacts.insert_newlines_slices|].
  rewrite WrapFacts.unwrap_join by now apply WrapFacts.slices_clean.
  apply WrapFacts.slices_concat. apply (WrapFacts.count_covers _ _ He).
Qed.

(** X15.  For a positive width no line of the result is longer than the
    width, and every line but the last is exactly that long (the text
    having no newline of its own). *)
Theorem insert_newlines_widths (s : string) (every : Z) :
  0 < every →
  occurs "010" s = false →
  ∃ out,
    insert_newlines s every = Returns out ∧
    ∀ (i : nat) (line : string),
      lines out !! i = Some line →
      Z.of_nat (String.length line) ≤ every ∧
      ((S i < List.length (lines out))%nat → Z.of_nat (String.length line) = every).
Proof.
  intros He Hs. eexists. split; [now apply WrapFacts.insert_newlines_slices|].
  destruct (WrapFacts.count_covers (String.length s) every He) as (Hcover & Hlast & Hzero).
  set (e := Z.to_nat every) in *. set (m := slice_count (String.length s) every) in *.
  intros i line. unfold lines.
  destruct (decide (String.length s = 0%nat)) as [Hlen|Hlen].
  - rewrite (Hzero Hlen). cbn. intros H. destruct i as [|i]; simplify_eq/=. split; lia.
  - rewrite WrapFacts.split_join; [|..].
    + unfold slices. rewrite list_lookup_fmap, length_map, length_seq.
      destruct (seq 0 m !! i) as [k|] eqn:Hk; [|discriminate].
      apply lookup_seq in Hk as [-> Hi]. cbn. intros [= <-].
      rewrite WrapFacts.length_substring. split; [lia|].
      intros Hnext.
      assert (S i * e <= (m - 1) * e)%nat by (apply Nat.mul_le_mono_r; lia).
      assert (Z.of_nat e = every) by (subst e; lia). lia.
    + unfold slices. destruct m as [|m]; [lia|]. discriminate.
    + now apply WrapFacts.slices_clean.
Qed.

(** X16.  The width must be positive: with the width zero
    [insert_newlines] raises [ValueError], and with a negative width it
    returns the empty string whatever the text. *)
Theorem insert_newlines_bad_width (s : string) (every : Z) :
  (every = 0 → raised (insert_newlines s every) = Some ValueError) ∧
  (every < 0 → insert_newlines s every = Returns "").
Proof.
  unfold insert_newlines, PyText.range. split.
  - intros ->. reflexivity.
  - intros He. destruct (Z.eqb_spec every 0) as [?|_]; [lia|].
    destruct (Z.ltb_spec 0 every) as [?|_]; [lia|].
    destruct (Z.ltb_spec (Z.of_nat (String.length s)) 0) as [?|_]; [lia|]. reflexivity.
Qed.

(** ** Names inside the archive *)

Module PathFacts.

Lemma str_join_cons (sep x : string) (l : list string) :
  l ≠ [] → PyText.str_join sep (x :: l) = x ++ sep ++ PyText.str_join sep l.
Proof. now destruct l. Qed.

Lemma str_join_snoc (sep : string) (l : list string) (x : string) :
  l ≠ [] → PyText.str_join sep (l ++ [x])%list = PyText.str_join sep l ++ sep ++ x.
Proof.
  induction l as [|y l IH]; intros Hne; [congruence|].
  destruct l as [|z l]; [reflexivity|].
  change ((y :: z :: l) ++ [x])%list with (y :: ((z :: l) ++ [x]))%list.
  rewrite str_join_cons by discriminate. rewrite IH by discriminate.
  rewrite (str_join_cons sep y (z :: l)) by discriminate.
  now rewrite !PyFacts.append_assoc.
Qed.

(** Splitting at a character the pieces are free of undoes joining with
    it. *)
Lemma split_join_char (c : ascii) (pieces : list string) :
  pieces ≠ [] →
  Forall (fun p => occurs c p = false) pieces →
  PyText.str_split c (PyText.str_join (String c "") pieces) = pieces.
Proof. exact (WrapFacts.split_join_any c pieces). Qed.

Lemma endswith_sep_free (p : string) : occurs Py.sep p = false → Py.endswith_sep p = false.
Proof.
  induction p as [|c p IH]; intros H; [reflexivity|].
  cbn in H. apply orb_false_elim in H as [Hc Hp].
  cbn [Py.endswith_sep]. destruct p; [exact Hc | exact (IH Hp)].
Qed.

Lemma startswith_sep_free (p : string) : occurs Py.sep p = false → Py.startswith_sep p = false.
Proof. destruct p as [|c p]; [reflexivity|]. cbn. intros H. now apply orb_false_elim in H as [-> _]. Qed.

Lemma join_step_component (acc x : string) :
  acc ≠ "" → Py.endswith_sep acc = false → component x →
  Py.join_step acc x = acc ++ "/" ++ x ∧
  acc ++ "/" ++ x ≠ "" ∧ Py.endswith_sep (acc ++ "/" ++ x) = false.
Proof.
  intros Hacc Hend [Hx Hfree]. unfold Py.join_step.
  rewrite (startswith_sep_free _ Hfree), Hend.
  destruct acc as [|a acc]; [congruence|]. cbn [String.eqb orb]. repeat split.
  - discriminate.
  - rewrite PyFacts.endswith_sep_app by discriminate.
    change ("/" ++ x) with (String Py.sep x).
    destruct x as [|c x]; [congruence|].
    change (Py.endswith_sep (String c x) = false). now apply endswith_sep_free.
Qed.

(** [os.path.join] of components is their join with the separator. *)
Lemma join_components (rest : list string) : ∀ acc,
  acc ≠ "" → Py.endswith_sep acc = false → Forall component rest →
  Py.join acc rest = PyText.str_join "/" (acc :: rest).
Proof.
  unfold Py.join. induction rest as [|x rest IH]; intros acc Hacc Hend Hall; [reflexivity|].
  apply Forall_cons in Hall as [Hx Hall]. cbn [fold_left].
  destruct (join_step_component acc x Hacc Hend Hx) as (-> & Hne & Hend').
  rewrite (IH _ Hne Hend' Hall).
  destruct rest as [|y rest]; [reflexivity|].
  rewrite !str_join_cons by discriminate. now rewrite !PyFacts.append_assoc.
Qed.

End PathFacts.

(** X17.  [_zipdir] names the members of the archive by their path below
    the first two components of the directory walked: for a file [f]
    found in [a/b/p1/.../pn] the member is [p1/.../pn/f].  For the
    [out_dir] that [call_method] synthesizes this strips [tmp/web/]. *)
Theorem zip_member_below_second (a b f : string) (pieces : list string) :
  occurs Py.sep a = false →
  Forall component (b :: pieces ++ [f])%list →
  zip_member_name (PyText.str_join "/" (a :: b :: pieces)) f
  = Returns (PyText.str_join "/" (pieces ++ [f])%list).
Proof.
  intros Ha Hall. unfold zip_member_name.
  assert (Forall component (b :: pieces)) as Hdir.
  { apply Forall_cons in Hall as [Hb Hall]. apply Forall_app in Hall as [Hp _]. now constructor. }
  assert (component f) as Hf.
  { apply Forall_cons in Hall as [_ Hall]. apply Forall_app in Hall as [_ Hf].
    inversion Hf; assumption. }
  set (root := PyText.str_join "/" (a :: b :: pieces)).
  assert (Py.join root [f] = PyText.str_join "/" ((a :: b :: pieces) ++ [f])%list) as ->.
  { rewrite PathFacts.str_join_snoc by discriminate. fold root.
    assert (root ≠ "" ∧ Py.endswith_sep root = false) as [Hroot Hend].
    { subst root. rewrite PathFacts.str_join_cons by discriminate. split.
      - apply PyFacts.app_not_empty. discriminate.
      - destruct (list_eq_nil_dec pieces) as [->|Hne].
        + cbn [PyText.str_join]. apply Forall_cons in Hdir as [[Hb Hbf] _].
          rewrite <- PyFacts.append_assoc, PyFacts.endswith_sep_app by exact Hb.
          now apply PathFacts.endswith_sep_free.
        + destruct (exists_last Hne) as (init & lastp & ->).
          change (b :: init ++ [lastp])%list with ((b :: init) ++ [lastp])%list.
          rewrite PathFacts.str_join_snoc by discriminate.
          apply Forall_cons in Hdir as [_ Hdir]. apply Forall_app in Hdir as [_ Hlast].
          inversion Hlast as [|? ? [Hl Hlf] _]; subst.
          rewrite <- !PyFacts.append_assoc, PyFacts.endswith_sep_app by exact Hl.
          now apply PathFacts.endswith_sep_free. }
    unfold Py.join. cbn [fold_left].
    now destruct (PathFacts.join_step_component root f Hroot Hend Hf) as (-> & _). }
  rewrite PathFacts.split_join_char.
  - change (drop 2 ((a :: b :: pieces) ++ [f])%list) with (pieces ++ [f])%list.
    destruct pieces as [|p pieces]; cbn [app PyText.join_all].
    + reflexivity.
    + f_equal. apply Forall_cons in Hall as [_ Hall]. cbn [app] in Hall.
      apply Forall_cons in Hall as [[Hp Hpf] Hall].
      apply PathFacts.join_components; auto. now apply PathFacts.endswith_sep_free.
  - discriminate.
  - cbn [app]. constructor; [exact Ha|].
    eapply Forall_impl; [exact Hall|]. intros p [_ Hp]. exact Hp.
Qed.

(** X18.  A file less than two directories deep cannot be archived: when
    neither the directory walked nor the file name holds a separator, no
    component is left after the first two are dropped and
    [os.path.join] raises [TypeError]. *)
Theorem zip_member_shallow_raises (root f : string) :
  occurs Py.sep root = false →
  occurs Py.sep f = false →
  raised (zip_member_name root f) = Some TypeError.
Proof.
  intros Hroot Hf. unfold zip_member_name, Py.join. cbn [fold_left]. unfold Py.join_step.
  rewrite (PathFacts.startswith_sep_free _ Hf), (PathFacts.endswith_sep_free _ Hroot).
  destruct root as [|c root].
  - cbn [String.eqb orb]. change ("" ++ f) with f.
    now rewrite (WrapFacts.split_absent _ _ Hf).
  - cbn [String.eqb orb].
    rewrite (WrapFacts.split_append _ _ _ Hroot), (WrapFacts.split_absent _ _ Hf).
    reflexivity.
Qed.

(** ** The extension of the synthesized [out_file] *)

Module ExtFacts.

Lemma rfind_from_absent (c : ascii) (s : string) : ∀ i last,
  occurs c s = false → Py.rfind_from c s i last = last.
Proof.
  induction s as [|d s IH]; intros i last H; [reflexivity|].
  cbn in H. apply orb_false_elim in H as [Hd Hs].
  cbn [Py.rfind_from]. rewrite Hd. now apply IH.
Qed.

Lemma rfind_from_append (c : ascii) (a b : string) : ∀ i last,
  Py.rfind_from c (a ++ b) i last
  = Py.rfind_from c b (i + Z.of_nat (String.length a)) (Py.rfind_from c a i last).
Proof.
  induction a as [|d a IH]; intros i last.
  - change ("" ++ b) with b. cbn. now rewrite Z.add_0_r.
  - change (String d a ++ b) with (String d (a ++ b)). cbn [Py.rfind_from String.length].
    rewrite IH. f_equal. lia.
Qed.

(** The result is the initial value or an index within the string. *)
Lemma rfind_from_range (c : ascii) (s : string) : ∀ i last,
  Py.rfind_from c s i last = last ∨
  i ≤ Py.rfind_from c s i last < i + Z.of_nat (String.length s).
Proof.
  induction s as [|d s IH]; intros i last; [now left|].
  cbn [Py.rfind_from String.length].
  destruct (IH (i + 1) (if Ascii.eqb d c then i else last)) as [-> | H].
  - destruct (Ascii.eqb d c); [right; lia | now left].
  - right. lia.
Qed.

Lemma rfind_from_present (c : ascii) (s : string) : ∀ i last,
  occurs c s = true → i ≤ Py.rfind_from c s i last.
Proof.
  induction s as [|d s IH]; intros i last H; [discriminate|].
  cbn [Py.rfind_from]. cbn in H.
  destruct (Ascii.eqb d c).
  - destruct (rfind_from_range c s (i + 1) i) as [-> | ?]; lia.
  - cbn in H. specialize (IH (i + 1) last H). lia.
Qed.

Lemma rfind_range (c : ascii) (s : string) :
  -1 ≤ Py.rfind c s < Z.of_nat (String.length s).
Proof. unfold Py.rfind. destruct (rfind_from_range c s 0 (-1)) as [-> | ?]; lia. Qed.

Lemma rfind_from_shift (c : ascii) (s : string) : ∀ i last,
  Py.rfind_from c s i last = if occurs c s then i + Py.rfind c s else last.
Proof.
  unfold Py.rfind. induction s as [|d s IH]; intros i last; [reflexivity|].
  cbn [Py.rfind_from occurs]. rewrite (IH (i + 1)), (IH (0 + 1)).
  destruct (Ascii.eqb d c), (occurs c s); cbn [orb]; lia.
Qed.

(** The text after the last occurrence of [c] is free of [c]. *)
Lemma rfind_decompose (c : ascii) (s : string) :
  0 ≤ Py.rfind c s →
  ∃ a b, s = a ++ String c b ∧ Z.of_nat (String.length a) = Py.rfind c s ∧
         occurs c b = false.
Proof.
  induction s as [|d s IH]; [cbn; lia|].
  unfold Py.rfind. cbn [Py.rfind_from]. rewrite rfind_from_shift.
  destruct (occurs c s) eqn:Hs.
  - intros _. destruct IH as (a & b & -> & Hlen & Hb).
    { pose proof (rfind_from_present c s 0 (-1) Hs) as H. exact H. }
    exists (String d a), b. repeat split; [|exact Hb].
    cbn [String.length]. lia.
  - destruct (Ascii.eqb_spec d c) as [->|Hd]; [|lia].
    intros _. exists "", s. repeat split. exact Hs.
Qed.

Lemma substring_prefix (m : nat) : ∀ a b : string,
  (m ≤ String.length a)%nat → substring 0 m (a ++ b) = substring 0 m a.
Proof.
  induction m as [|m IH]; intros [|c a] b Hm; try reflexivity.
  - now destruct b.
  - cbn in Hm. lia.
  - change (String c a ++ b) with (String c (a ++ b)). cbn [substring].
    rewrite IH; [reflexivity | cbn in Hm; lia].
Qed.

Lemma substring_all (s : string) : substring 0 (String.length s) s = s.
Proof. induction s as [|c s IH]; [reflexivity|]. cbn. now rewrite IH. Qed.

Lemma substring_drop_all (n m : nat) : ∀ s,
  (String.length s - n ≤ m)%nat → substring n m s = string_drop n s.
Proof.
  induction n as [|n IH]; intros s Hm.
  - cbn [string_drop]. rewrite Nat.sub_0_r in Hm. revert s Hm.
    induction m as [|m IHm]; intros [|c s] Hm; try reflexivity.
    + cbn in Hm. lia.
    + cbn [substring]. rewrite IHm; [reflexivity | cbn in Hm; lia].
  - destruct s as [|c s]; [now destruct m|]. cbn [substring string_drop].
    apply IH. cbn in Hm. lia.
Qed.

Lemma substring_from (k m : nat) (s : string) :
  substring k m s = substring 0 m (string_drop k s).
Proof. rewrite <- (Nat.add_0_r k) at 1. apply WrapFacts.substring_shift. Qed.

Lemma drop_append (n : nat) : ∀ a b : string,
  (n ≤ String.length a)%nat → string_drop n (a ++ b) = string_drop n a ++ b.
Proof.
  induction n as [|n IH]; intros a b Hn; [reflexivity|].
  destruct a as [|c a]; [cbn in Hn; lia|].
  change (String c a ++ b) with (String c (a ++ b)). cbn [string_drop].
  apply IH. cbn in Hn. lia.
Qed.

Lemma drop_length (a b : string) : string_drop (String.length a) (a ++ b) = b.
Proof.
  induction a as [|c a IH]; [reflexivity|].
  change (String c a ++ b) with (String c (a ++ b)). exact IH.
Qed.

Lemma has_non_dot_append (a b : string) :
  Py.has_non_dot b = true → Py.has_non_dot (a ++ b) = true.
Proof.
  intros Hb. induction a as [|c a IH]; [exact Hb|].
  change (String c a ++ b) with (String c (a ++ b)). cbn [Py.has_non_dot].
  now destruct (Ascii.eqb c ".").
Qed.

(** What follows the last separator. *)
Lemma basename_drop (p : string) :
  PyText.basename p = string_drop (Z.to_nat (Py.rfind Py.sep p + 1)) p.
Proof.
  unfold PyText.basename, Py.slice_from. apply substring_drop_all. lia.
Qed.

(** A path that ends in a dot and a run of characters free of dots and
    separators splits there, provided some character before the dot, in
    the last component, is not a dot. *)
Lemma splitext_append (p e : string) :
  occurs "." e = false →
  occurs Py.sep e = false →
  Py.has_non_dot (PyText.basename p) = true →
  Py.splitext (p ++ String "." e) = (p, String "." e).
Proof.
  intros Hdot Hsep Hstem. unfold Py.splitext.
  assert (Py.rfind "." (p ++ String "." e) = Z.of_nat (String.length p)) as ->.
  { unfold Py.rfind. rewrite rfind_from_append. cbn [Py.rfind_from Ascii.eqb Bool.eqb].
    rewrite rfind_from_absent by exact Hdot. lia. }
  assert (Py.rfind Py.sep (p ++ String "." e) = Py.rfind Py.sep p) as ->.
  { unfold Py.rfind. rewrite rfind_from_append. apply rfind_from_absent.
    cbn [occurs]. now rewrite Hsep. }
  pose proof (rfind_range Py.sep p) as Hk.
  destruct (Z.ltb_spec (Py.rfind Py.sep p) (Z.of_nat (String.length p))) as [_|?]; [|lia].
  unfold Py.slice, Py.slice_from. cbn [andb].
  set (k := Z.to_nat (Py.rfind Py.sep p + 1)).
  assert (substring k (Z.to_nat (Z.of_nat (String.length p) - (Py.rfind Py.sep p + 1)))
            (p ++ String "." e) = string_drop k p) as ->.
  { rewrite substring_from.
    rewrite drop_append by (subst k; lia).
    rewrite substring_prefix by (rewrite WrapFacts.length_drop; subst k; lia).
    rewrite substring_drop_all; [reflexivity|]. rewrite WrapFacts.length_drop. subst k. lia. }
  rewrite basename_drop in Hstem. fold k in Hstem. rewrite Hstem.
  f_equal.
  - rewrite Z.sub_0_r, Nat2Z.id. cbn [Z.to_nat].
    rewrite substring_prefix by lia. apply substring_all.
  - rewrite Nat2Z.id. rewrite substring_drop_all by lia. apply drop_length.
Qed.

(** The extension [splitext] finds is empty, or a dot followed by
    characters free of dots and separators. *)
Lemma splitext_shape (d : string) :
  (Py.splitext d).2 = "" ∨
  ∃ e, (Py.splitext d).2 = String "." e ∧ occurs "." e = false ∧ occurs Py.sep e = false.
Proof.
  unfold Py.splitext.
  destruct (Z.ltb_spec (Py.rfind Py.sep d) (Py.rfind "." d)) as [Hlt|?]; [|now left].
  destruct (Py.has_non_dot _); [|now left]. right. cbn [andb snd].
  pose proof (rfind_range Py.sep d) as Hsep.
  destruct (rfind_decompose "." d) as (a & b & Hd & Hlen & Hb); [lia|].
  exists b. unfold Py.slice_from. rewrite <- Hlen, Nat2Z.id.
  rewrite substring_drop_all by lia. rewrite Hd at 1. rewrite drop_length.
  repeat split; [exact Hb|].
  destruct (occurs Py.sep b) eqn:Hsb; [|reflexivity]. exfalso.
  assert (Z.of_nat (String.length a) + 1 ≤ Py.rfind Py.sep d); [|lia].
  rewrite Hd at 1. unfold Py.rfind. rewrite rfind_from_append. cbn [Py.rfind_from].
  apply rfind_from_present. exact Hsb.
Qed.

(** The path synthesized for [out_file] splits at the extension of the
    default. *)
Lemma synthesized_extension (rt : runtime) (req : request) (n timestamp d : string) :
  n ≠ "" →
  occurs Py.sep n = false →
  Py.startswith_sep timestamp = false →
  (Py.splitext d).2 ≠ "" →
  ∃ path,
    coerce rt req (Some n) timestamp "out_file" (VStr d) = Returns (Some (VStr path)) ∧
    (Py.splitext path).2 = (Py.splitext d).2.
Proof.
  intros Hn Hfree Ht Hext.
  destruct (splitext_shape d) as [Hnone | (e & He & Hdot & Hsep)]; [congruence|].
  cbn [coerce String.eqb Ascii.eqb Bool.eqb staging_path out_file_name default].
  unfold_bind. rewrite PyFacts.replace_sep, PyFacts.join_staging; auto.
  - eexists. split; [reflexivity|]. rewrite He.
    change (out_file_name timestamp (Some n) (String "." e))
      with (timestamp ++ "-" ++ n ++ String "." e).
    rewrite <- !PyFacts.append_assoc.
    rewrite splitext_append; [reflexivity | exact Hdot | exact Hsep |].
    rewrite basename_drop.
    set (q := (("tmp/web/" ++ n) ++ "/") ++ timestamp).
    assert (Py.rfind Py.sep ((q ++ "-") ++ n) = Py.rfind Py.sep q) as ->.
    { rewrite PyFacts.append_assoc. unfold Py.rfind. rewrite rfind_from_append.
      apply rfind_from_absent. change ("-" ++ n) with (String "-" n).
      cbn [occurs]. exact Hfree. }
    pose proof (rfind_range Py.sep q) as Hk.
    rewrite PyFacts.append_assoc, drop_append by lia.
    apply has_non_dot_append. reflexivity.
  - now apply PathFacts.startswith_sep_free.
  - now apply PathFacts.endswith_sep_free.
  - now apply PyFacts.startswith_sep_app.
Qed.

End ExtFacts.

(** X19.  The synthesized [out_file] keeps the extension of the
    descriptor default as [os.path.splitext] sees it: when the default
    has an extension, splitting the synthesized path gives the same one,
    for any command name free of separators. *)
Theorem out_file_keeps_extension (rt : runtime) (req : request) (n timestamp d : string) :
  n ≠ "" →
  occurs Py.sep n = false →
  Py.startswith_sep timestamp = false →
  (Py.splitext d).2 ≠ "" →
  ∃ path,
    coerce rt req (Some n) timestamp "out_file" (VStr d) = Returns (Some (VStr path)) ∧
    (Py.splitext path).2 = (Py.splitext d).2.
Proof. apply ExtFacts.synthesized_extension. Qed.

(** ** A form submitted unchanged *)

Module IntFacts.

Local Abbreviation is_digit := (fun c => bool_decide (is_Some (Py.digit_value c))).
Local Abbreviation no_space := (fun c => negb (Py.is_space c)).

Lemma digit_value_char (d : N) :
  (d < 10)%N → Py.digit_value (pretty_N_char d) = Some (Z.of_N d).
Proof.
  intros Hd.
  assert (d = 0 ∨ d = 1 ∨ d = 2 ∨ d = 3 ∨ d = 4 ∨ d = 5 ∨ d = 6 ∨ d = 7 ∨ d = 8 ∨ d = 9)%N
    as H by lia.
  repeat (destruct H as [-> | H]; [reflexivity|]). now subst.
Qed.

(** A digit is no white space and no sign. *)
Lemma digit_not_space (c : ascii) : is_digit c = true → Py.is_space c = false.
Proof. destruct c as [[] [] [] [] [] [] [] []]; intros H; try reflexivity; discriminate H. Qed.

Lemma digit_not_sign (c : ascii) (r : string) :
  is_digit c = true → Py.split_sign (String c r) = (false, String c r).
Proof. destruct c as [[] [] [] [] [] [] [] []]; intros H; try reflexivity; discriminate H. Qed.

Lemma digits_no_space (s : string) :
  string_forallb is_digit s = true → string_forallb no_space s = true.
Proof.
  induction s as [|c s IH]; [reflexivity|]. cbn [string_forallb].
  intros H. apply andb_true_iff in H as [Hc Hs].
  now rewrite (digit_not_space c Hc), IH.
Qed.

(** Reading back the digits [pretty] writes in front of [s]. *)
Lemma digits_pretty_go (x : N) : ∀ s b,
  Py.digits (pretty_N_go x s) 0 b = Py.digits s (Z.of_N x) (b || (0 <? x)%N).
Proof.
  induction (N.lt_wf_0 x) as [x _ IH]; intros s b.
  destruct (N.eq_dec x 0) as [->|Hx].
  - rewrite pretty_N_go_0. cbn. now rewrite orb_false_r.
  - rewrite pretty_N_go_step by lia.
    rewrite IH by (apply N.div_lt; lia).
    cbn [Py.digits]. rewrite digit_value_char by (apply N.mod_lt; lia).
    assert ((0 <? x)%N = true) as -> by (apply N.ltb_lt; lia).
    rewrite orb_true_r. f_equal.
    pose proof (N.div_mod x 10 ltac:(lia)) as Hdm.
    revert Hdm. generalize (x / 10)%N, (x mod 10)%N. intros q r ->.
    now rewrite N2Z.inj_add, N2Z.inj_mul.
Qed.

(** What [pretty] writes is digits only, and at least one for a positive
    number. *)
Lemma pretty_go_shape (x : N) : ∀ s,
  string_forallb is_digit s = true →
  string_forallb is_digit (pretty_N_go x s) = true ∧
  ((0 < x)%N → ∃ c r, pretty_N_go x s = String c r).
Proof.
  induction (N.lt_wf_0 x) as [x _ IH]; intros s Hs.
  destruct (N.eq_dec x 0) as [->|Hx].
  - rewrite pretty_N_go_0. split; [exact Hs | lia].
  - rewrite pretty_N_go_step by lia.
    destruct (IH (x `div` 10)%N ltac:(apply N.div_lt; lia)
                (String (pretty_N_char (x `mod` 10)) s)) as [Hall Hhead].
    { cbn [string_forallb]. rewrite Hs, andb_true_r.
      rewrite digit_value_char by (apply N.mod_lt; lia). reflexivity. }
    split; [exact Hall|]. intros _.
    destruct (N.eq_dec (x `div` 10) 0) as [Hq|Hq].
    + rewrite Hq, pretty_N_go_0. eauto.
    + apply Hhead. now apply N.neq_0_lt_0.
Qed.

Lemma lstrip_head (c : ascii) (s : string) :
  Py.is_space c = false → Py.lstrip (String c s) = String c s.
Proof. intros H. cbn. now rewrite H. Qed.

Lemma rstrip_no_space (s : string) :
  string_forallb no_space s = true → Py.rstrip s = s.
Proof.
  induction s as [|c s IH]; intros H; [reflexivity|].
  cbn in H. apply andb_true_iff in H as [Hc Hs].
  cbn [Py.rstrip]. rewrite (IH Hs). apply negb_true_iff in Hc. now rewrite Hc.
Qed.

Lemma span_digits_all (s : string) :
  string_forallb is_digit s = true → Py.span_digits s = (s, "").
Proof.
  induction s as [|c s IH]; [reflexivity|]. cbn [string_forallb Py.span_digits].
  intros H. apply andb_true_iff in H as [Hc Hs]. now rewrite Hc, (IH Hs).
Qed.

(** What [int()] makes of a run of digits, with or without a minus sign
    in front. *)
Lemma scan_digits (negative : bool) (c : ascii) (r : string) (z : Z) :
  string_forallb is_digit (String c r) = true →
  Py.digits (String c r) 0 false = Some z →
  (Py.digit_count (String c r) <=? Py.int_max_str_digits)%nat = true →
  Py.parse_int ((if negative then "-" else "") ++ String c r)
  = Some (if negative then - z else z).
Proof.
  intros Hall Hdig Hcount.
  pose proof (digits_no_space _ Hall) as Hns.
  pose proof Hall as Hc. cbn [string_forallb] in Hc. apply andb_true_iff in Hc as [Hc _].
  assert (Py.split_sign (Py.strip ((if negative then "-" else "") ++ String c r))
          = (negative, String c r)) as Hsign.
  { unfold Py.strip. destruct negative.
    - change ("-" ++ String c r) with (String "-" (String c r)).
      rewrite lstrip_head by reflexivity.
      rewrite rstrip_no_space
        by (change (negb (Py.is_space "-") && string_forallb no_space (String c r) = true);
            now rewrite Hns).
      reflexivity.
    - change ("" ++ String c r) with (String c r).
      rewrite lstrip_head by now apply digit_not_space.
      rewrite rstrip_no_space by exact Hns.
      now apply digit_not_sign. }
  unfold Py.parse_int, Py.scan_int. rewrite Hsign, (span_digits_all _ Hall), Hdig.
  apply Nat.leb_le in Hcount.
  destruct (Nat.ltb_spec Py.int_max_str_digits (Py.digit_count (String c r))) as [Hlt|_];
    [lia|].
  reflexivity.
Qed.

(** [int(str(z))] is [z], whenever [str(z)] is to be had. *)
Lemma parse_str_int (z : Z) (text : string) :
  Py.str_int z = Some text → Py.parse_int text = Some z.
Proof.
  unfold Py.str_int.
  destruct (Py.digit_count (pretty z) <=? Py.int_max_str_digits)%nat eqn:Hcount;
    [|discriminate].
  intros [= <-]. destruct z as [|p|p].
  - reflexivity.
  - change (pretty (Zpos p)) with (pretty_N_go (Npos p) "") in *.
    destruct (pretty_go_shape (Npos p) "" eq_refl) as [Hall (c & r & Hr)]; [lia|].
    pose proof (digits_pretty_go (Npos p) "" false) as Hdig.
    rewrite Hr in Hall, Hdig, Hcount |- *.
    exact (scan_digits false c r (Zpos p) Hall Hdig Hcount).
  - change (pretty (Zneg p)) with (String "-" (pretty_N_go (Npos p) "")) in *.
    destruct (pretty_go_shape (Npos p) "" eq_refl) as [Hall (c & r & Hr)]; [lia|].
    pose proof (digits_pretty_go (Npos p) "" false) as Hdig.
    rewrite Hr in Hall, Hdig, Hcount |- *.
    exact (scan_digits true c r (Zpos p) Hall Hdig Hcount).
Qed.

End IntFacts.

(** X20.  The decimal text of an integer is read back as that integer:
    for an integer default, submitting [str(z)] coerces to [z], except
    that zero gives way to the default.  The text [str(z)] is to be had
    for an integer of at most [sys.int_max_str_digits] digits, and such a
    text [int()] reads. *)
Theorem int_text_read_back (rt : runtime) (req : request) (name : option string)
    (timestamp arg text : string) (d z : Z) :
  Py.str_int z = Some text →
  get (form req) arg = Some text →
  coerce rt req name timestamp arg (VInt d)
  = Returns (Some (VInt (if decide (z = 0) then d else z))).
Proof.
  intros Htext Hget. cbn [coerce]. rewrite Hget. cbn [Py.int].
  rewrite (IntFacts.parse_str_int z text Htext). unfold_bind. unfold py_or. cbn [truthy].
  case_decide as Hz.
  - subst z. reflexivity.
  - now destruct (Z.eqb_spec z 0).
Qed.

(** X21.  A text box or password box submitted with the value it was
    rendered with coerces to the descriptor default: this round trip
    through form and coercion changes nothing, for string, integer and
    absent defaults alike. *)
Theorem unchanged_box_gives_default (rt : runtime) (req : request) (name : option string)
    (timestamp : string) (table : list string) (arg : string) (d : pyval)
    (c : control) (text : string) :
  get_form_control table arg d = Some c →
  initial_value c = Some text →
  get (form req) arg = Some text →
  coerce rt req name timestamp arg d = Returns (Some d).
Proof.
  intros Hc Hinit Hget.
  destruct d as [|b|z|s|l|m e]; cbn [get_form_control] in Hc.
  - repeat case_match; simplify_eq; cbn in Hinit; simplify_eq.
    cbn [coerce]. now rewrite Hget.
  - repeat case_match; simplify_eq; cbn in Hinit; simplify_eq.
  - injection Hc as <-. cbn [initial_value shown] in Hinit.
    cbn [coerce]. rewrite Hget. cbn [Py.int]. rewrite (IntFacts.parse_str_int z text Hinit).
    unfold_bind. unfold py_or. now destruct (truthy (VInt z)).
  - cbn [coerce]. destruct (String.eqb arg "out_dir"); [discriminate|].
    destruct (String.eqb arg "out_file"); [discriminate|].
    rewrite Hget.
    repeat case_match; simplify_eq; cbn in Hinit; simplify_eq;
      unfold py_or; cbn [Py.of_option]; now destruct (truthy _).
  - repeat case_match; simplify_eq; cbn in Hinit; simplify_eq.
  - discriminate.
Qed.

(** ** The plugin's tab *)

Module HtmlFacts.

Local Open Scope list_scope.

Local Abbreviation button :=
  (fun (plugin : string) (it : command) => DynButton plugin (Py.replace "_" " " (__name__ it))).

(** The inner loop: a label before the first button unless the category
    is the one last seen; afterwards the category is the one last seen. *)
Lemma html_buttons_spec (plugin category : string) (items : list command) : ∀ last,
  html_buttons plugin category items last
  = (match items with
     | [] => []
     | _ => (if String.eqb category last then [] else [CategoryLabel category])
            ++ map (button plugin) items
     end,
     match items with [] => last | _ => category end).
Proof.
  induction items as [|it items IH]; intros last; [reflexivity|].
  cbn [html_buttons]. rewrite IH. rewrite String.eqb_refl.
  destruct items; reflexivity.
Qed.

(** Past the first category: no category is named by the empty string
    and none is the one last seen, so every category with a command is
    announced. *)
Lemma html_categories_fresh (plugin : string) (cl : command_list) (cs : list string) :
  ∀ last,
  "" ∉ cs → last ∉ cs → NoDup cs →
  html_categories plugin cl cs last = flat_map (category_block plugin cl) cs.
Proof.
  induction cs as [|c cs IH]; intros last Hempty Hlast Hnd; [reflexivity|].
  apply not_elem_of_cons in Hempty as [Hc Hempty].
  apply not_elem_of_cons in Hlast as [Hcl Hlast].
  apply NoDup_cons in Hnd as [Hfresh Hnd].
  cbn [html_categories flat_map]. rewrite html_buttons_spec.
  assert (String.eqb c last = false) as -> by (apply String.eqb_neq; congruence).
  unfold category_block at 1.
  destruct (commands_of cl c) as [|it items] eqn:Hitems.
  - rewrite bool_decide_eq_true_2 by now right. cbn. now apply IH.
  - rewrite bool_decide_eq_false_2 by (intros [?|?]; congruence).
    f_equal. now apply IH.
Qed.

Lemma le_empty (c : string) : String.le c "" → c = "".
Proof. destruct c; [reflexivity|]. cbv. tauto. Qed.

(** Over sorted, pairwise distinct categories the state [last_category]
    matters for the category named by the empty string only. *)
Lemma html_categories_sorted (plugin : string) (cl : command_list) (cs : list string) :
  StronglySorted String.le cs → NoDup cs →
  html_categories plugin cl cs "" = flat_map (category_block plugin cl) cs.
Proof.
  intros Hsorted Hnd. destruct cs as [|c cs]; [reflexivity|].
  apply StronglySorted_inv in Hsorted as [_ Hmin].
  apply NoDup_cons in Hnd as [Hfresh Hnd].
  assert ("" ∉ cs) as Hempty.
  { intros Hin. rewrite Forall_forall in Hmin.
    apply Hfresh. now rewrite (le_empty c (Hmin "" Hin)). }
  cbn [html_categories flat_map]. rewrite html_buttons_spec.
  unfold category_block at 1.
  destruct (commands_of cl c) as [|it items] eqn:Hitems.
  - rewrite bool_decide_eq_true_2 by now right. cbn.
    now apply html_categories_fresh.
  - destruct (String.eqb_spec c "") as [->|Hc].
    + rewrite bool_decide_eq_true_2 by now left. cbn [app].
      f_equal. now apply html_categories_fresh.
    + rewrite bool_decide_eq_false_2 by (intros [?|?]; congruence).
      f_equal. now apply html_categories_fresh.
Qed.

End HtmlFacts.

(** X22.  The tab of a plugin lists its categories in sorted order, each
    as a label followed by one button per command, the button captions
    being the command names with underscores turned into spaces.  A
    category without commands contributes nothing, and the category named
    by the empty string gets its buttons but no label. *)
Theorem html_listing (cat : catalog) (plugin : string) (module : command_list) :
  cat !! PyText.str_replace "mast.datapower." "" plugin = Some module →
  NoDup module.*1 →
  html cat plugin
  = Returns (flat_map (category_block plugin module) (merge_sort String.le module.*1)).
Proof.
  intros Hplugin Hnd. unfold html, get_module. rewrite Hplugin. unfold_bind.
  f_equal. apply HtmlFacts.html_categories_sorted.
  - apply StronglySorted_merge_sort; apply _.
  - now rewrite merge_sort_Permutation.
Qed.

(** ** More on the coercion loop *)

(** X23.  A synthesized [out_file] passes the check at the entry of
    [cert_audit]: when the descriptor default ends in [.csv] or [.xlsx],
    so does the path the command is called with, and the command neither
    exits nor raises [ValueError] there. *)
Theorem cert_audit_accepts_synthesized (rt : runtime) (req : request)
    (n timestamp d : string) :
  n ≠ "" →
  occurs Py.sep n = false →
  Py.startswith_sep timestamp = false →
  (Py.splitext d).2 ∈ [".csv"; ".xlsx"] →
  ∃ path,
    coerce rt req (Some n) timestamp "out_file" (VStr d) = Returns (Some (VStr path)) ∧
    cert_audit_out_file (Some path) = Returns (Py.splitext d).2.
Proof.
  intros Hn Hfree Ht Hext.
  destruct (ExtFacts.synthesized_extension rt req n timestamp d Hn Hfree Ht)
    as (path & Hpath & Hsame).
  { intros Hnone. rewrite Hnone in Hext.
    repeat (apply elem_of_cons in Hext as [?|Hext]; [discriminate|]).
    now apply elem_of_nil in Hext. }
  exists path. split; [exact Hpath|].
  unfold cert_audit_out_file. rewrite Hsame. now rewrite bool_decide_eq_true_2.
Qed.

Lemma comprehension_forall2 {A B} (f : A → outcome B) (l : list A) : ∀ bs,
  comprehension f l = Returns bs → Forall2 (fun a b => f a = Returns b) l bs.
Proof.
  induction l as [|a l IH]; intros bs H; cbn in H.
  - injection H as <-. constructor.
  - unfold_bind. destruct (f a) as [b|e] eqn:Hb; [|discriminate].
    destruct (comprehension f l) as [bs'|e]; [|discriminate].
    injection H as <-. constructor; auto.
Qed.

(** X24.  The coerced [credentials] are the submitted ones decoded one by
    one: as many as were submitted, in the order submitted, repetitions
    kept. *)
Theorem credentials_decoded_in_order (rt : runtime) (req : request) (name : option string)
    (timestamp : string) (l : list pyval) (v : option pyval) :
  coerce rt req name timestamp "credentials" (VList l) = Returns v →
  ∃ decoded,
    v = Some (VList decoded) ∧
    Forall2 (fun c b => decode_credential rt req c = Returns b)
            (getlist (form req) "credentials[]") decoded.
Proof.
  cbn [coerce String.eqb Ascii.eqb Bool.eqb]. unfold_bind.
  change ("credentials" ++ "[]") with "credentials[]".
  destruct (comprehension _ _) as [bs|e] eqn:Hbs; [|discriminate].
  intros [= <-]. exists bs. split; [reflexivity|].
  now apply comprehension_forall2.
Qed.

(** X25.  The session cookie is read once per submitted credential:
    without the cookie, coercing [credentials] raises [KeyError] as soon
    as one credential is submitted, and gives the empty list when none
    is. *)
Theorem credentials_without_cookie (rt : runtime) (req : request) (name : option string)
    (timestamp : string) (l : list pyval) :
  cookies req !! session_cookie = None →
  (getlist (form req) "credentials[]" = [] →
   coerce rt req name timestamp "credentials" (VList l) = Returns (Some (VList []))) ∧
  (getlist (form req) "credentials[]" ≠ [] →
   raised (coerce rt req name timestamp "credentials" (VList l)) = Some KeyError).
Proof.
  intros Hcookie. cbn [coerce String.eqb Ascii.eqb Bool.eqb]. unfold_bind.
  change ("credentials" ++ "[]") with "credentials[]".
  destruct (getlist (form req) "credentials[]") as [|c cs]; split; try congruence.
  - reflexivity.
  - intros _. cbn [comprehension]. unfold decode_credential, cookie. rewrite Hcookie.
    unfold_bind. reflexivity.
Qed.

Lemma no_name_absent (items : list command) : absent_from None items.
Proof. induction items; constructor; auto. Qed.

(** X26.  A submission without the field [callable] gets nowhere:
    [call_method] raises [UnboundLocalError] from the lookup, before any
    argument is coerced, and nothing is written. *)
Theorem submission_without_callable (rt : runtime) (cat : catalog) (t t' : string) (rand : Z)
    (plugin : string) (module : command_list) (req : request) (w : world) :
  cat !! plugin = Some module →
  get (form req) "callable" = None →
  ∃ e, call_method rt cat t t' rand plugin req w = (Raises e, w) ∧
       exn_class e = UnboundLocalError.
Proof.
  intros Hplugin Hname. unfold call_method. rewrite Hname.
  unfold _get_arguments, get_module. rewrite Hplugin. unfold_bind.
  rewrite (scan_categories_absent None module (Locals false None None)).
  - cbn. eexists. split; reflexivity.
  - apply Forall_forall. intros c _. apply no_name_absent.
Qed.

(** * Further scenarios *)

Lemma first_command_resolved_witness :
  _get_arguments sample_catalog "system" (Some "ping")
  = Returns ([("appliances", VList [])], ping).
Proof.
  apply (first_command_resolved sample_catalog "system"
           [("appliance", [reboot; ping]); ("monitoring", [status])]
           (Some "ping") [reboot] ping [status] [VList []]);
    [reflexivity | reflexivity | repeat constructor | reflexivity | reflexivity].
Defined.

Lemma command_without_defaults_raises_witness :
  raised (_get_arguments crowded_catalog "system" (Some "version")) = Some TypeError.
Proof.
  apply (command_without_defaults_raises crowded_catalog "system"
           [("monitoring", [status; version]); ("", [rename]); ("appliance", [reboot; ping])]
           (Some "version") [status] version [rename; reboot; ping]);
    [reflexivity | reflexivity | repeat constructor | reflexivity | reflexivity].
Defined.

(** [rename(name, force=False, web=False)]: the descriptor names are
    [name] and [force], and [web] is lost. *)
Lemma resolved_descriptor_witness :
  ∃ module ds,
    crowded_catalog !! "system" = Some module ∧
    rename ∈ List.concat module.*2 ∧
    Some "rename" = Some (__name__ rename) ∧
    defaults rename = Some ds ∧
    [("name", VBool false); ("force", VBool false)].*1 = take (List.length ds) (args rename) ∧
    [("name", VBool false); ("force", VBool false)].*2 = take (List.length (args rename)) ds.
Proof.
  apply (resolved_descriptor crowded_catalog "system" (Some "rename")
           [("name", VBool false); ("force", VBool false)] rename).
  reflexivity.
Defined.

Lemma form_controls_witness :
  ∃ n arguments fn,
    Some "reboot" = Some n ∧
    "reboot" = Py.replace "_" " " n ∧
    _get_arguments sample_catalog "system" (Some "reboot") = Returns (arguments, fn) ∧
    [("delay", TextBox (VInt 5))] ≡ₚ controls ["Domain"] arguments.
Proof.
  apply (form_controls sample_catalog ["Domain"] "system" (Some "reboot") "reboot"
           [("delay", TextBox (VInt 5))]).
  reflexivity.
Defined.

Lemma keys_are_controls_and_skipped_witness :
  dom ({[ "appliances" := VList [VStr "dp1"];
          "credentials" := VList [VStr "admin:s3cret"];
          "delay" := VInt 7;
          "web" := VBool true ]} : gmap string pyval)
  = list_to_set
      (controls ["Domain"]
         [("appliances", VList []); ("credentials", VList []); ("delay", VInt 5);
          ("web", VBool false)]).*1
    ∪ list_to_set
        (filter (fun p : string * pyval => skipped p.1 p.2)
           [("appliances", VList []); ("credentials", VList []); ("delay", VInt 5);
            ("web", VBool false)]).*1.
Proof.
  apply (keys_are_controls_and_skipped sample_runtime reboot_request (Some "reboot")
           "20240101-000000" ["Domain"]).
  vm_compute. reflexivity.
Defined.

Lemma invoker_frame_witness :
  files (_call_method sample_runtime "20240101-000001" 12345 reports
           {[ "web" := VBool true ]} empty_world).2 !! "tmp/web/audit/report.csv"
  = files (after_command reports {[ "web" := VBool true ]} empty_world)
      !! "tmp/web/audit/report.csv".
Proof.
  apply (proj1 (invoker_frame sample_runtime "20240101-000001" 12345 reports
                  {[ "web" := VBool true ]} empty_world)).
  vm_compute. discriminate.
Defined.

Lemma command_not_consulted_witness :
  _call_method sample_runtime "20240101-000001" 12345 answers
    {[ "appliances" := VList [VStr "dp1"] ]} empty_world
  = _call_method sample_runtime "20240101-000001" 12345 fails
      {[ "appliances" := VList [VStr "dp1"] ]} empty_world.
Proof.
  apply (command_not_consulted sample_runtime "20240101-000001" 12345 answers fails).
  left. reflexivity.
Defined.

Lemma history_path_inj_witness : 12345 = 12345.
Proof.
  apply (history_path_inj "20240101-000001" 12345 12345). reflexivity.
Defined.

Lemma submission_succeeds_witness :
  call_method sample_runtime sample_catalog "20240101-000000" "20240101-000001" 12345
    "system" reboot_request empty_world
  = (Returns ("<p>done</p>", "20240101-000001-12345.log",
              {[ "appliances" := VList [VStr "dp1"];
                 "credentials" := VList [VStr "admin:s3cret"];
                 "delay" := VInt 7;
                 "web" := VBool true ]}),
     logged "20240101-000001" 12345 "request history" empty_world).
Proof.
  apply (submission_succeeds sample_runtime sample_catalog "20240101-000000"
           "20240101-000001" 12345 "system" reboot_request empty_world empty_world
           [("appliances", VList []); ("credentials", VList []); ("delay", VInt 5);
            ("web", VBool false)] reboot).
  - reflexivity.
  - vm_compute. reflexivity.
  - exists (VBool true). reflexivity.
  - reflexivity.
  - reflexivity.
Defined.

Lemma submission_returns_witness :
  ∃ out kwargs w',
    call_method sample_runtime sample_catalog "20240101-000000" "20240101-000001" 12345
      "system" reboot_request empty_world
    = (Returns (out, history_id "20240101-000001" 12345, kwargs), w').
Proof.
  apply (submission_returns sample_runtime sample_catalog "20240101-000000"
           "20240101-000001" 12345 "system" reboot_request empty_world
           [("appliances", VList []); ("credentials", VList []); ("delay", VInt 5);
            ("web", VBool false)] reboot false).
  - reflexivity.
  - compute_done.
  - do 3 apply list_elem_of_further. apply list_elem_of_here.
  - repeat apply Forall_cons_2; try apply Forall_nil_2; cbn [well_formed_for fst snd].
    + discriminate.
    + intros _. exists "cookie". split; [reflexivity|].
      intros c Hc. eexists. reflexivity.
    + exists "7", 7. split; reflexivity.
    + exact I.
  - intros d Hd. apply elem_of_cons in Hd as [Hd|Hd].
    + injection Hd as ->. exists []. split; [reflexivity | discriminate].
    + repeat (apply elem_of_cons in Hd as [Hd|Hd]; [discriminate|]).
      now apply elem_of_nil in Hd.
  - intros kw w0 e w1. discriminate.
Defined.

Lemma insert_newlines_unwrap_witness :
  ∃ out, insert_newlines pem_body 8 = Returns out ∧ Py.replace "010" "" out = pem_body.
Proof. apply (insert_newlines_unwrap pem_body 8); [lia | reflexivity]. Defined.

Lemma insert_newlines_widths_witness :
  ∃ out,
    insert_newlines pem_body 12 = Returns out ∧
    ∀ (i : nat) (line : string),
      lines out !! i = Some line →
      Z.of_nat (String.length line) ≤ 12 ∧
      ((S i < List.length (lines out))%nat → Z.of_nat (String.length line) = 12).
Proof. apply (insert_newlines_widths pem_body 12); [lia | reflexivity]. Defined.

Lemma insert_newlines_bad_width_witness :
  raised (insert_newlines pem_body 0) = Some ValueError ∧
  insert_newlines pem_body (-64) = Returns "".
Proof.
  split.
  - apply (proj1 (insert_newlines_bad_width pem_body 0)). reflexivity.
  - apply (proj2 (insert_newlines_bad_width pem_body (-64))). lia.
Defined.

Lemma zip_member_below_second_witness :
  zip_member_name "tmp/web/export_certs/20240101-000000" "dp1.pem"
  = Returns "export_certs/20240101-000000/dp1.pem".
Proof.
  apply (zip_member_below_second "tmp" "web" "dp1.pem" ["export_certs"; "20240101-000000"]).
  - reflexivity.
  - repeat constructor; discriminate.
Defined.

Lemma zip_member_shallow_raises_witness :
  raised (zip_member_name "tmp" "dp1.pem") = Some TypeError.
Proof. apply (zip_member_shallow_raises "tmp" "dp1.pem"); reflexivity. Defined.

Lemma out_file_keeps_extension_witness :
  ∃ path,
    coerce sample_runtime no_request (Some "audit") "20240101-000000" "out_file"
      (VStr "report.xlsx") = Returns (Some (VStr path)) ∧
    (Py.splitext path).2 = (Py.splitext "report.xlsx").2.
Proof.
  apply (out_file_keeps_extension sample_runtime no_request "audit" "20240101-000000"
           "report.xlsx"); [discriminate | reflexivity | reflexivity | discriminate].
Defined.

Lemma int_text_read_back_witness :
  coerce sample_runtime (Request {[ "delay" := ["-12"] ]} ∅) (Some "reboot")
    "20240101-000000" "delay" (VInt 5)
  = Returns (Some (VInt (-12))).
Proof.
  apply (int_text_read_back sample_runtime (Request {[ "delay" := ["-12"] ]} ∅)
           (Some "reboot") "20240101-000000" "delay" "-12" 5 (-12)); reflexivity.
Defined.

Lemma unchanged_box_gives_default_witness :
  coerce sample_runtime (Request {[ "delay" := ["5"] ]} ∅) (Some "reboot")
    "20240101-000000" "delay" (VInt 5)
  = Returns (Some (VInt 5)).
Proof.
  apply (unchanged_box_gives_default sample_runtime (Request {[ "delay" := ["5"] ]} ∅)
           (Some "reboot") "20240101-000000" ["Domain"] "delay" (VInt 5)
           (TextBox (VInt 5)) "5"); reflexivity.
Defined.

Lemma html_listing_witness :
  html crowded_catalog "mast.datapower.system"
  = Returns [DynButton "mast.datapower.system" "rename";
             CategoryLabel "appliance";
             DynButton "mast.datapower.system" "reboot";
             DynButton "mast.datapower.system" "ping";
             CategoryLabel "monitoring";
             DynButton "mast.datapower.system" "status";
             DynButton "mast.datapower.system" "version"].
Proof.
  apply (html_listing crowded_catalog "mast.datapower.system"
           [("monitoring", [status; version]); ("", [rename]); ("appliance", [reboot; ping])]).
  - reflexivity.
  - compute_done.
Defined.

(** The default of [cert_audit], [tmp/cert-audit.xlsx]. *)
Lemma cert_audit_accepts_synthesized_witness :
  ∃ path,
    coerce sample_runtime no_request (Some "cert_audit") "20240101-000000" "out_file"
      (VStr "tmp/cert-audit.xlsx") = Returns (Some (VStr path)) ∧
    cert_audit_out_file (Some path) = Returns (Py.splitext "tmp/cert-audit.xlsx").2.
Proof.
  apply (cert_audit_accepts_synthesized sample_runtime no_request "cert_audit"
           "20240101-000000" "tmp/cert-audit.xlsx");
    [discriminate | reflexivity | reflexivity | compute_done].
Defined.

Lemma credentials_decoded_in_order_witness :
  ∃ decoded,
    Some (VList [VStr "admin:s3cret"]) = Some (VList decoded) ∧
    Forall2 (fun c b => decode_credential sample_runtime reboot_request c = Returns b)
            (getlist (form reboot_request) "credentials[]") decoded.
Proof.
  apply (credentials_decoded_in_order sample_runtime reboot_request (Some "reboot")
           "20240101-000000" []).
  vm_compute. reflexivity.
Defined.

Lemma credentials_without_cookie_witness :
  raised (coerce sample_runtime (Request {[ "credentials[]" := ["secret"] ]} ∅)
            (Some "reboot") "20240101-000000" "credentials" (VList []))
  = Some KeyError.
Proof.
  destruct (credentials_without_cookie sample_runtime
              (Request {[ "credentials[]" := ["secret"] ]} ∅) (Some "reboot")
              "20240101-000000" []) as [_ H]; [reflexivity|].
  apply H. vm_compute. discriminate.
Defined.

Lemma submission_without_callable_witness :
  ∃ e,
    call_method sample_runtime sample_catalog "20240101-000000" "20240101-000001" 12345
      "system" no_request empty_world = (Raises e, empty_world) ∧
    exn_class e = UnboundLocalError.
Proof.
  apply (submission_without_callable sample_runtime sample_catalog "20240101-000000"
           "20240101-000001" 12345 "system"
           [("appliance", [reboot; ping]); ("monitoring", [status])] no_request empty_world);
    reflexivity.
Defined.

(** Nothing checked in the form: the list holds one empty string. *)
Lemma no_appliance_selected_witness :
  _call_method sample_runtime "20240101-000001" 12345 fails
    {[ "appliances" := VList [VStr ""]; "web" := VBool true ]} empty_world
  = (Returns (Some ("Must select at least one appliance.", "20240101-000001-12345.log")),
     logged "20240101-000001" 12345 "Must select at least one appliance." empty_world).
Proof.
  apply (no_appliance_selected sample_runtime "20240101-000001" 12345 fails
           {[ "appliances" := VList [VStr ""]; "web" := VBool true ]} empty_world
           (VStr "") []).
  - reflexivity.
  - reflexivity.
  - exists (VBool true). reflexivity.
Defined.

Lemma out_dir_synthesized_witness :
  coerce sample_runtime no_request (Some "export_certs") "20240101-000000" "out_dir"
    (VStr "tmp")
  = Returns (Some (VStr "tmp/web/export_certs/20240101-000000")).
Proof.
  apply (out_dir_synthesized sample_runtime no_request (Some "export_certs")
           "20240101-000000" "export_certs" "tmp");
    [reflexivity | discriminate | reflexivity | reflexivity | reflexivity].
Defined.

(** A text box cleared before submitting. *)
Lemma int_not_a_literal_raises_witness :
  raised (coerce sample_runtime (Request {[ "delay" := [""] ]} ∅) (Some "reboot")
            "20240101-000000" "delay" (VInt 5))
  = Some ValueError.
Proof.
  apply (int_not_a_literal_raises sample_runtime (Request {[ "delay" := [""] ]} ∅)
           (Some "reboot") "20240101-000000" "delay" "" 5); reflexivity.
Defined.
